(** * gabarit templates: the dense Keras regressor and the LIME explainer

    A shallow embedding of the two template modules

    - [template_num/.../models_training/regressors/model_dense_regressor.py]
      (class [ModelDenseRegressor]: [_get_model], [reload_from_standalone]);
    - [template_nlp/.../monitoring/model_explainer.py]
      (class [LimeExplainer]: [__init__], [classifier_fn], [explain_instance],
      [explain_instance_as_html], [explain_instance_as_list]);

    followed by the properties of these methods.

    Python objects are attribute dictionaries ([gmap string pyval]), methods
    are computations in a state-and-exception monad whose state survives a
    raised exception, and the calls into Keras, LIME, [json], [dill] and the
    sibling modules of the generated package are parameters of a [Section]. *)

From Stdlib Require Import Floats ZArith.
From stdpp Require Import gmap strings list fin_maps.

Set Warnings "-register-all,-inexact-float".

(** ** Python values, exceptions and the method monad *)

Module Py.

(** The values that flow through the two modules.  A [float] is a binary64
    number, as in Python; a JSON object is a [VDict] with string keys.
    [VCallable] stands for any object Python's [callable] accepts (function,
    bound method, class), [VObject] for any other foreign object (a loaded
    Keras model, an unpickled pipeline, a numpy array), with what [len]
    returns on it when it has a length. *)
Inductive pyval : Type :=
  | VNone
  | VBool (b : bool)
  | VInt (n : Z)
  | VFloat (f : float)
  | VStr (s : string)
  | VList (l : list pyval)
  | VDict (d : gmap string pyval)
  | VCallable (name : string)
  | VObject (name : string) (sized : option nat).

Inductive exn : Type :=
  | ValueError (msg : string)
  | FileNotFoundError (msg : string)
  | TypeError (msg : string)
  | AttributeError (msg : string)
  | KeyError (msg : string)
  | OSError (msg : string)
  | SameFileError (msg : string)
  | LibraryError (cls msg : string).

Inductive result (A : Type) : Type :=
  | Ok (a : A)
  | Err (e : exn).
Arguments Ok {A} a.
Arguments Err {A} e.

#[global] Instance result_ret : MRet result := λ A a, Ok a.
#[global] Instance result_bind : MBind result := λ A B f r,
  match r with Ok a => f a | Err e => Err e end.

(** A method body: it reads and writes a state [S] and either returns or
    raises; what it wrote before raising stays written. *)
Definition M (S A : Type) : Type := S → result A * S.

#[global] Instance M_ret {S} : MRet (M S) := λ A a s, (Ok a, s).
#[global] Instance M_bind {S} : MBind (M S) := λ A B f m s,
  match m s with
  | (Ok a, s') => f a s'
  | (Err e, s') => (Err e, s')
  end.

Definition raise {S A} (e : exn) : M S A := λ s, (Err e, s).
Definition lift {S A} (r : result A) : M S A := λ s, (r, s).

(** [for x in l: body(x)] *)
Fixpoint for_ {S A} (l : list A) (body : A → M S unit) : M S unit :=
  match l with
  | [] => mret tt
  | x :: l' => body x;; for_ l' body
  end.

(** The whole state, as the method sees it at that point. *)
Definition get {S} : M S S := λ s, (Ok s, s).

(** A relation between the state before and after a computation that holds
    whatever the outcome. *)
Definition stable {S A} (R : relation S) (m : M S A) : Prop :=
  ∀ s, R s (m s).2.

(** [v is None] *)
Definition is_none (v : pyval) : bool :=
  match v with VNone => true | _ => false end.

(** [callable(v)] *)
Definition callable (v : pyval) : bool :=
  match v with VCallable _ => true | _ => false end.

(** The number of code points of a [str], held as its UTF-8 bytes: every
    byte but the continuation bytes [10xxxxxx]. *)
Fixpoint code_points (s : string) : nat :=
  match s with
  | EmptyString => 0
  | String (Ascii.Ascii _ _ _ _ _ _ b6 b7) s' =>
      (if b7 && negb b6 then 0 else 1) + code_points s'
  end.

(** [len(v)] *)
Definition len (v : pyval) : result Z :=
  match v with
  | VList l => Ok (Z.of_nat (length l))
  | VStr s => Ok (Z.of_nat (code_points s))
  | VDict d => Ok (Z.of_nat (size d))
  | VObject _ (Some n) => Ok (Z.of_nat n)
  | _ => Err (TypeError "object has no len()")
  end.

(** [d.get(k, default)] *)
Definition dict_get (d : pyval) (k : string) (default : pyval) : result pyval :=
  match d with
  | VDict m => Ok (match m !! k with Some v => v | None => default end)
  | _ => Err (AttributeError "object has no attribute 'get'")
  end.

(** [k in d.keys()] *)
Definition in_keys (k : string) (d : pyval) : result bool :=
  match d with
  | VDict m => Ok (bool_decide (is_Some (m !! k)))
  | _ => Err (AttributeError "object has no attribute 'keys'")
  end.

(** [d[k]] for a string key *)
Definition getitem (d : pyval) (k : string) : result pyval :=
  match d with
  | VDict m =>
      match m !! k with Some v => Ok v | None => Err (KeyError k) end
  | _ => Err (TypeError "object is not subscriptable")
  end.

(** [v in [s1, s2, ...]] for a list of string literals *)
Definition in_strs (v : pyval) (l : list string) : bool :=
  match v with
  | VStr s => bool_decide (s ∈ l)
  | _ => false
  end.

End Py.

(** ** model_dense_regressor.py *)

Module ModelDenseRegressor.
Import Py.

(** *** Keras objects, as far as [_get_model] builds them *)

Inductive layer : Type :=
  | Dense (units : Z) (activation : option string) (kernel_initializer : string)
  | BatchNormalization (momentum : float)
  | ELU (alpha : float)
  | Dropout (rate : float).

(** A symbolic tensor of the functional API: [Input(shape=...)], or a layer
    called on a tensor. *)
Inductive tensor : Type :=
  | Input (shape : list Z)
  | Call (l : layer) (x : tensor).

Record optimizer : Type := Adam { lr : pyval; decay : pyval }.

Inductive metric : Type :=
  | MetricName (name : string)
  | MetricFunction (qualname : string).

Record compile_args : Type := CompileArgs {
  compile_optimizer : optimizer;
  compile_loss : string;
  compile_metrics : list metric
}.

Record Model : Type := MkModel {
  inputs : tensor;
  outputs : list tensor;
  compiled : option compile_args
}.

(** [Model(inputs=..., outputs=...)] *)
Definition Model_new (i : tensor) (o : list tensor) : Model := MkModel i o None.

(** [model.compile(optimizer=..., loss=..., metrics=...)] *)
Definition compile (m : Model) (opt : optimizer) (l : string) (ms : list metric) : Model :=
  MkModel (inputs m) (outputs m) (Some (CompileArgs opt l ms)).

(** *** The instance and its environment *)

(** What the methods do to the outside, in order. *)
Inductive event : Type :=
  | EvExists (path : string)            (* os.path.exists(path) *)
  | EvOpen (path mode : string)         (* open(path, mode) *)
  | EvJsonLoad                          (* json.load(f) *)
  | EvLoadModel (path : string)         (* load_model_keras(path, ...) *)
  | EvCopyFile (src dst : string)       (* shutil.copyfile(src, dst) *)
  | EvPickleLoad                        (* pickle.load(f) *)
  | EvLoggerInfo (prefix : string) (v : pyval)  (* self.logger.info(f"prefix{v}") *)
  | EvSummary (m : Model).              (* model.summary() *)

(** [self] is the instance's [__dict__]; [fs] maps a path to the content
    [open] reads from the file it names (paths are compared as written;
    directories, and files the process may not read, are not represented);
    [logger_level] is what [self.logger.getEffectiveLevel()] returns. *)
Record state : Type := State {
  self : gmap string pyval;
  fs : gmap string string;
  logger_level : Z;
  trace : list event
}.

Definition set_self (f : gmap string pyval → gmap string pyval) (s : state) : state :=
  State (f (self s)) (fs s) (logger_level s) (trace s).
Definition set_fs (f : gmap string string → gmap string string) (s : state) : state :=
  State (self s) (f (fs s)) (logger_level s) (trace s).
Definition gets {A} (f : state → A) : M state A := λ s, (Ok (f s), s).
Definition emit (e : event) : M state unit :=
  λ s, (Ok tt, State (self s) (fs s) (logger_level s) (trace s ++ [e])).

(** [getattr(self, name)] *)
Definition getattr (name : string) : M state pyval := λ s,
  match self s !! name with
  | Some v => (Ok v, s)
  | None => (Err (AttributeError name), s)
  end.

(** [setattr(self, name, v)] *)
Definition setattr (name : string) (v : pyval) : M state unit :=
  λ s, (Ok tt, set_self <[name := v]> s).

(** [self.logger.info(f"prefix{v}")] *)
Definition logger_info (prefix : string) (v : pyval) : M state unit :=
  emit (EvLoggerInfo prefix v).

(** [self.logger.getEffectiveLevel()] *)
Definition getEffectiveLevel : M state Z := gets logger_level.

(** [logging.ERROR] *)
Definition logging_ERROR : Z := 40.

(** [model.summary()] *)
Definition summary (m : Model) : M state unit := emit (EvSummary m).

(** [os.path.exists(path)] *)
Definition os_path_exists (path : string) : M state bool :=
  emit (EvExists path);;
  gets (λ s, bool_decide (is_Some (fs s !! path))).

(** The content of the file at [path]; [missing] is raised when there is none. *)
Definition read_file (path : string) (missing : exn) : M state string := λ s,
  match fs s !! path with
  | Some c => (Ok c, s)
  | None => (Err missing, s)
  end.

(** [open(path, mode)] for reading: yields the content of the file. *)
Definition open_ (path mode : string) : M state string :=
  emit (EvOpen path mode);;
  read_file path (FileNotFoundError path).

(** [s.endswith('/')] *)
Fixpoint endswith_sep (s : string) : bool :=
  match s with
  | EmptyString => false
  | String _ EmptyString => bool_decide (s = "/")
  | String _ s' => endswith_sep s'
  end.

(** [os.path.join(a, b)] (posixpath) *)
Definition os_path_join (a : pyval) (b : string) : result string :=
  match a with
  | VStr a =>
      if String.prefix "/" b then Ok b
      else if bool_decide (a = "") || endswith_sep a then Ok (a +:+ b)
      else Ok (a +:+ "/" +:+ b)
  | _ => Err (TypeError "expected str, bytes or os.PathLike object")
  end.

Section Methods.

(** The calls into other libraries and into the parent class [ModelKeras],
    none of which is part of this module. *)

(** [json.load] on a file with the given content. *)
Variable json_load : string → result pyval.
(** [tensorflow.keras.models.load_model] on a file with the given content and
    [custom_objects]. *)
Variable load_model_keras : string → pyval → result pyval.
(** [dill.load] on a file with the given content. *)
Variable pickle_load : string → result pyval.
(** [ModelKeras._save_model_png]. *)
Variable _save_model_png : Model → M state unit.
(** The exception [tensorflow.keras.optimizers.Adam(lr=lr, decay=decay)]
    raises on these arguments, when it raises. *)
Variable Adam_raises : pyval → pyval → option exn.
(** The exception [shutil.copyfile(src, dst)] raises, among the files given,
    for a reason the file store does not show (the directory of [dst] does not
    exist, [dst] is another spelling of [src], a permission is missing), when
    it raises. *)
Variable copyfile_raises : gmap string string → string → string → option exn.

(** [Adam(lr=lr, decay=decay)] *)
Definition new_Adam (lr decay : pyval) : result optimizer :=
  match Adam_raises lr decay with
  | Some e => Err e
  | None => Ok (Adam lr decay)
  end.

(** [shutil.copyfile(src, dst)] *)
Definition shutil_copyfile (src dst : string) : M state unit :=
  emit (EvCopyFile src dst);;
  c ← read_file src (FileNotFoundError src);
  if bool_decide (src = dst) then raise (SameFileError src)
  else
    refused ← gets (λ s, copyfile_raises (fs s) src dst);
    match refused with
    | Some e => raise e
    | None => λ s, (Ok tt, set_fs <[dst := c]> s)
    end.

(** [utils_deep_keras.root_mean_squared_error] *)
Definition root_mean_squared_error : metric :=
  MetricFunction "utils_deep_keras.root_mean_squared_error".

Definition _get_model : M state Model :=
  (* Get input/output dimensions *)
  x_col ← getattr "x_col";
  input_dim ← lift (len x_col);
  (* Process *)
  let input_layer := Input [input_dim] in
  let x := Call (Dense 64 None "he_uniform") input_layer in
  let x := Call (BatchNormalization 0.9) x in
  let x := Call (ELU 1.0) x in
  let x := Call (Dropout 0.2) x in
  let x := Call (Dense 64 None "he_uniform") x in
  let x := Call (BatchNormalization 0.9) x in
  let x := Call (ELU 1.0) x in
  let x := Call (Dropout 0.2) x in
  (* Last layer *)
  let activation : option string := None in
  let out := Call (Dense 1 activation "glorot_uniform") x in
  (* Set model *)
  let model := Model_new input_layer [out] in
  (* Set optimizer *)
  keras_params ← getattr "keras_params";
  has_lr ← lift (in_keys "learning_rate" keras_params);
  lr ← (if has_lr : bool
        then keras_params ← getattr "keras_params";
             lift (getitem keras_params "learning_rate")
        else mret (VFloat 0.001));
  keras_params ← getattr "keras_params";
  has_decay ← lift (in_keys "decay" keras_params);
  decay ← (if has_decay : bool
           then keras_params ← getattr "keras_params";
                lift (getitem keras_params "decay")
           else mret (VFloat 0.0));
  logger_info "Learning rate: " lr;;
  logger_info "Decay: " decay;;
  optimizer ← lift (new_Adam lr decay);
  (* Set loss & metrics *)
  let loss := "mean_squared_error" in
  let metrics := [MetricName "mean_squared_error"; MetricName "mean_absolute_error";
                  root_mean_squared_error] in
  (* Compile model *)
  let model := compile model optimizer loss metrics in
  level ← getEffectiveLevel;
  (if bool_decide (level < logging_ERROR)%Z then summary model else mret tt);;
  (* Try to save model as png if level_save > 'LOW' *)
  level_save ← getattr "level_save";
  (if in_strs level_save ["MEDIUM"; "HIGH"] then _save_model_png model else mret tt);;
  (* Return *)
  mret model.

(** [kwargs.get(name, None)]: the three keyword arguments are documented as
    [str]; [None] is Python's [None]. *)
Definition kwargs_get (kwargs : gmap string (option string)) (name : string) : option string :=
  match kwargs !! name with Some v => v | None => None end.

(** The attributes the loop of [reload_from_standalone] goes through. *)
Definition reload_attributes : list string :=
  ["model_type"; "x_col"; "y_col"; "columns_in"; "mandatory_columns";
   "level_save"; "batch_size"; "epochs"; "validation_split"; "patience";
   "keras_params"].

(** Lines 126-138: the checks.  Returns the three paths. *)
Definition reload_from_standalone_checks (kwargs : gmap string (option string))
  : M state (string * string * string) :=
  (* Retrieve args *)
  let configuration_path := kwargs_get kwargs "configuration_path" in
  let hdf5_path := kwargs_get kwargs "hdf5_path" in
  let preprocess_pipeline_path := kwargs_get kwargs "preprocess_pipeline_path" in
  (* Checks *)
  match configuration_path with
  | None => raise (ValueError "The argument configuration_path can't be None")
  | Some configuration_path =>
  match hdf5_path with
  | None => raise (ValueError "The argument hdf5_path can't be None")
  | Some hdf5_path =>
  match preprocess_pipeline_path with
  | None => raise (ValueError "The argument preprocess_pipeline_path can't be None")
  | Some preprocess_pipeline_path =>
    b ← os_path_exists configuration_path;
    if negb b then
      raise (FileNotFoundError ("The file " +:+ configuration_path +:+ " does not exist"))
    else
    b ← os_path_exists hdf5_path;
    if negb b then
      raise (FileNotFoundError ("The file " +:+ hdf5_path +:+ " does not exist"))
    else
    b ← os_path_exists preprocess_pipeline_path;
    if negb b then
      raise (FileNotFoundError ("The file " +:+ preprocess_pipeline_path +:+ " does not exist"))
    else
      mret (configuration_path, hdf5_path, preprocess_pipeline_path)
  end end end.

(** Lines 140-164: what follows the checks. *)
Definition reload_from_standalone_body
    (configuration_path hdf5_path preprocess_pipeline_path : string) : M state unit :=
  (* Load confs *)
  f ← open_ configuration_path "r";
  emit EvJsonLoad;;
  configs ← lift (json_load f);
  (* Set class vars *)
  v ← lift (dict_get configs "nb_fit" (VInt 1));
  setattr "nb_fit" v;;
  v ← lift (dict_get configs "trained" (VBool true));
  setattr "trained" v;;
  for_ reload_attributes (λ attribute,
    current ← getattr attribute;
    v ← lift (dict_get configs attribute current);
    setattr attribute v);;
  (* Reload model *)
  custom_objects ← getattr "custom_objects";
  emit (EvLoadModel hdf5_path);;
  content ← read_file hdf5_path (OSError hdf5_path);
  model ← lift (load_model_keras content custom_objects);
  setattr "model" model;;
  (* Save best hdf5 in new folder *)
  model_dir ← getattr "model_dir";
  new_hdf5_path ← lift (os_path_join model_dir "best.hdf5");
  shutil_copyfile hdf5_path new_hdf5_path;;
  (* Reload pipeline preprocessing *)
  f ← open_ preprocess_pipeline_path "rb";
  emit EvPickleLoad;;
  pipeline ← lift (pickle_load f);
  setattr "preprocess_pipeline" pipeline.

Definition reload_from_standalone (kwargs : gmap string (option string)) : M state unit :=
  '(configuration_path, hdf5_path, preprocess_pipeline_path) ←
    reload_from_standalone_checks kwargs;
  reload_from_standalone_body configuration_path hdf5_path preprocess_pipeline_path.

End Methods.

End ModelDenseRegressor.

(** ** model_explainer.py *)

Module ModelExplainer.
Import Py.

(** [getattr(obj, name, default)] on an object given by its attributes. *)
Definition getattr_default (obj : gmap string pyval) (name : string) (default : pyval) : pyval :=
  match obj !! name with Some v => v | None => default end.

(** [obj.name] *)
Definition getattr (obj : gmap string pyval) (name : string) : result pyval :=
  match obj !! name with Some v => Ok v | None => Err (AttributeError name) end.

(** [lime.lime_text.LimeTextExplainer(class_names=...)] *)
Record LimeTextExplainer : Type := MkLimeTextExplainer { lime_class_names : pyval }.

(** The attributes of a [LimeExplainer]; [model] is the supplied model object,
    given by its attributes. *)
Record LimeExplainer : Type := MkLimeExplainer {
  logger : string;
  model : gmap string pyval;
  model_conf : pyval;
  class_names : pyval;
  current_class_or_label_index : pyval;
  explainer : LimeTextExplainer
}.

(** [self.current_class_or_label_index = v] *)
Definition set_current_class_or_label_index (v : pyval) : M LimeExplainer unit := λ self,
  (Ok tt, MkLimeExplainer (logger self) (model self) (model_conf self) (class_names self)
            v (explainer self)).

(** [LimeExplainer.__init__(self, model, model_conf)] *)
Definition __init__ (model : gmap string pyval) (model_conf : pyval) : result LimeExplainer :=
  (* super().__init__() *)
  let logger := "model_explainer" in
  let pred_proba_op := getattr_default model "predict_proba" VNone in
  if is_none pred_proba_op || negb (callable pred_proba_op) then
    Err (TypeError "The supplied model must implement a predict_proba() function")
  else if is_none (getattr_default model "list_classes" VNone) then
    Err (TypeError "The supplied model must have a list_classes attribute")
  else
    class_names ← getattr model "list_classes";
    (* Our explainers will explain a prediction for a given class / label *)
    let current_class_or_label_index := VInt 0 in
    (* Create the explainer *)
    let explainer := MkLimeTextExplainer class_names in
    mret (MkLimeExplainer logger model model_conf class_names
            current_class_or_label_index explainer).

Section Methods.

(** The calls that leave this module. *)

(** [preprocess.get_preprocessor], from the package's preprocessing module. *)
Variable get_preprocessor : pyval → result pyval.
(** What calling a callable object on arguments returns. *)
Variable call : pyval → list pyval → result pyval.
(** [lime.explanation.Explanation] and its [as_html] and [as_list(label=...)]. *)
Variable Explanation : Type.
Variable as_html : Explanation → result pyval.
Variable as_list : Explanation → pyval → result pyval.
(** [LimeTextExplainer.explain_instance(content, classifier_fn, labels=..., num_features=...)];
    [labels] is the tuple, as a list. *)
Variable lime_explain_instance :
  LimeTextExplainer → pyval → (pyval → result pyval) → list pyval → pyval → result Explanation.

(** Calling [f] on positional arguments. *)
Definition py_call (f : pyval) (args : list pyval) : result pyval :=
  if callable f then call f args else Err (TypeError "object is not callable").

Definition classifier_fn (self : LimeExplainer) (content_list : pyval) : result pyval :=
  (* Get preprocessor *)
  has ← in_keys "preprocess_str" (model_conf self);
  preprocess_str ← (if has : bool
                    then getitem (model_conf self) "preprocess_str"
                    else mret (VStr "no_preprocess"));
  preprocessor ← get_preprocessor preprocess_str;
  (* Preprocess *)
  content_prep ← py_call preprocessor [content_list];
  (* Get probabilities *)
  predict_proba ← getattr (model self) "predict_proba";
  py_call predict_proba [content_prep].

Definition explain_instance (content class_or_label_index max_features : pyval)
  : M LimeExplainer Explanation :=
  (* Set index *)
  (if negb (is_none class_or_label_index)
   then set_current_class_or_label_index class_or_label_index
   else set_current_class_or_label_index (VInt 1));;  (* Def to 1 *)
  (* Get explanations *)
  self ← get;
  lift (lime_explain_instance (explainer self) content (classifier_fn self)
          [current_class_or_label_index self] max_features).

Definition explain_instance_as_html (content class_or_label_index max_features : pyval)
  : M LimeExplainer pyval :=
  explanation ← explain_instance content class_or_label_index max_features;
  lift (as_html explanation).

Definition explain_instance_as_list (content class_or_label_index max_features : pyval)
  : M LimeExplainer pyval :=
  explanation ← explain_instance content class_or_label_index max_features;
  (* Return as list for selected class or label *)
  self ← get;
  lift (as_list explanation (current_class_or_label_index self)).

End Methods.

End ModelExplainer.

(** ** The vocabulary of the properties *)

Module PySpec.
Import Py.

(** [None], a boolean and a number have no [len]. *)
Definition unsized (v : pyval) : bool :=
  match v with
  | VNone | VBool _ | VInt _ | VFloat _ => true
  | _ => false
  end.

(** [None], a boolean, a number, a string and a list have no [keys]. *)
Definition keyless (v : pyval) : bool :=
  match v with
  | VNone | VBool _ | VInt _ | VFloat _ | VStr _ | VList _ => true
  | _ => false
  end.

End PySpec.

Module ModelDenseRegressorSpec.
Import Py ModelDenseRegressor.

(** The attribute [k] of the instance has the same value (or is absent) in
    both states. *)
Definition same_attr (k : string) : relation state :=
  λ s s', self s' !! k = self s !! k.

(** Only the record of events differs. *)
Definition same_store : relation state :=
  λ s s', self s' = self s ∧ fs s' = fs s ∧ logger_level s' = logger_level s.

(** Events are only ever added, at the end. *)
Definition extends : relation state :=
  λ s s', trace s `prefix_of` trace s'.

(** A file is opened, read or written (everything but an existence test and
    the logging of [_get_model]). *)
Definition is_file_access (e : event) : bool :=
  match e with
  | EvOpen _ _ | EvJsonLoad | EvLoadModel _ | EvCopyFile _ _ | EvPickleLoad => true
  | EvExists _ | EvLoggerInfo _ _ | EvSummary _ => false
  end.

(** The state once the three existence tests have been made. *)
Definition checked (cp hp pp : string) (s : state) : state :=
  State (self s) (fs s) (logger_level s)
    (trace s ++ [EvExists cp; EvExists hp; EvExists pp]).

(** The attributes [reload_from_standalone] assigns. *)
Definition written_attributes : list string :=
  "nb_fit" :: "trained" :: reload_attributes ++ ["model"; "preprocess_pipeline"].

(** [configs.get(k, default)] on the loaded mapping. *)
Definition override (d : gmap string pyval) (k : string) (default : pyval) : pyval :=
  match d !! k with Some v => v | None => default end.

(** One of the three keyword arguments is [None] (or was not passed). *)
Definition some_none (kwargs : gmap string (option string)) : Prop :=
  kwargs_get kwargs "configuration_path" = None ∨
  kwargs_get kwargs "hdf5_path" = None ∨
  kwargs_get kwargs "preprocess_pipeline_path" = None.

(** The three keyword arguments are the paths [cp], [hp] and [pp]. *)
Definition supplied (kwargs : gmap string (option string)) (cp hp pp : string) : Prop :=
  kwargs_get kwargs "configuration_path" = Some cp ∧
  kwargs_get kwargs "hdf5_path" = Some hp ∧
  kwargs_get kwargs "preprocess_pipeline_path" = Some pp.

(** One of the three paths names no file. *)
Definition some_missing (s : state) (cp hp pp : string) : Prop :=
  fs s !! cp = None ∨ fs s !! hp = None ∨ fs s !! pp = None.

(** The eleven attributes the specification says keep the instance's value
    when the file has no such key, and the thirteen it says the method
    handles, name by name. *)
Definition kept_attributes : list string :=
  ["model_type"; "x_col"; "y_col"; "columns_in"; "mandatory_columns"; "level_save";
   "batch_size"; "epochs"; "validation_split"; "patience"; "keras_params"].

Definition handled_attributes : list string :=
  ["nb_fit"; "trained"; "model_type"; "x_col"; "y_col"; "columns_in";
   "mandatory_columns"; "level_save"; "batch_size"; "epochs"; "validation_split";
   "patience"; "keras_params"].

(** The configuration of the file [d] applied as the specification words it,
    between the instance before and after the reload: a key of the file
    gives the file's value, and an attribute whose key the file lacks is
    left as it was. *)
Definition present_overrides_absent_keeps (d : gmap string pyval) (s s' : state) : Prop :=
  ∀ a, a ∈ handled_attributes →
    (∀ v, d !! a = Some v → self s' !! a = Some v) ∧
    (d !! a = None → self s' !! a = self s !! a).

(** The layers a tensor went through, first applied first, and the input it
    started from. *)
Fixpoint layers_of (t : tensor) : list layer :=
  match t with
  | Input _ => []
  | Call l x => layers_of x ++ [l]
  end.

Fixpoint input_of (t : tensor) : tensor :=
  match t with
  | Input shape => Input shape
  | Call _ x => input_of x
  end.

(** The topology as the specification words it: two hidden blocks, then the
    output layer. *)
Definition hidden_block : list layer :=
  [Dense 64 None "he_uniform"; BatchNormalization 0.9; ELU 1.0; Dropout 0.2].

Definition claimed_layers : list layer :=
  hidden_block ++ hidden_block ++ [Dense 1 None "glorot_uniform"].

(** [keras_params['learning_rate']] if present else [0.001], and the same for
    ['decay'] and [0.0]. *)
Definition learning_rate_of (keras_params : gmap string pyval) : pyval :=
  match keras_params !! "learning_rate" with Some v => v | None => VFloat 0.001 end.

Definition decay_of (keras_params : gmap string pyval) : pyval :=
  match keras_params !! "decay" with Some v => v | None => VFloat 0.0 end.

(** [p] is the path [os.path.join(self.model_dir, 'best.hdf5')] of the
    instance. *)
Definition best_hdf5 (s : state) (p : string) : Prop :=
  ∃ dir, self s !! "model_dir" = Some dir ∧ os_path_join dir "best.hdf5" = Ok p.

(** [model_dir] is kept, and so is what every path other than the instance's
    [best.hdf5] names. *)
Definition writes_best_only : relation state :=
  λ s s', self s' !! "model_dir" = self s !! "model_dir" ∧
          ∀ p, ¬ best_hdf5 s p → fs s' !! p = fs s !! p.

(** The path [p] names the same content (or nothing) in both states. *)
Definition keeps_file (p : string) : relation state :=
  λ s s', fs s' !! p = fs s !! p.

(** The state [_get_model] reaches before it draws the model [m]: the two
    log lines, and the summary when the logger level is below [ERROR]. *)
Definition logged (s : state) (keras_params : gmap string pyval) (m : Model) : state :=
  State (self s) (fs s) (logger_level s)
    (trace s ++
       [EvLoggerInfo "Learning rate: " (learning_rate_of keras_params);
        EvLoggerInfo "Decay: " (decay_of keras_params)] ++
       (if bool_decide (logger_level s < logging_ERROR)%Z then [EvSummary m] else [])).

(** The state [_get_model] is in when it calls [Adam]: the two lines are
    logged. *)
Definition logged_rates (s : state) (keras_params : gmap string pyval) : state :=
  State (self s) (fs s) (logger_level s)
    (trace s ++
       [EvLoggerInfo "Learning rate: " (learning_rate_of keras_params);
        EvLoggerInfo "Decay: " (decay_of keras_params)]).

End ModelDenseRegressorSpec.

Module ModelExplainerSpec.
Import Py ModelExplainer.

(** The object has no attribute [name] that is callable. *)
Definition lacks_callable (obj : gmap string pyval) (name : string) : Prop :=
  ∀ v, obj !! name = Some v → callable v = false.

(** The object has no attribute [name], or the attribute is [None]. *)
Definition absent_or_none (obj : gmap string pyval) (name : string) : Prop :=
  obj !! name = None ∨ obj !! name = Some VNone.

(** The key the preprocessor is looked up by. *)
Definition preprocess_key (conf : gmap string pyval) : pyval :=
  match conf !! "preprocess_str" with Some k => k | None => VStr "no_preprocess" end.

(** [self] with [current_class_or_label_index] set to [v]. *)
Definition with_index (v : pyval) (self : LimeExplainer) : LimeExplainer :=
  MkLimeExplainer (logger self) (model self) (model_conf self) (class_names self)
    v (explainer self).

(** The index [explain_instance] works with: the one it is given, or [1]. *)
Definition effective_index (class_or_label_index : pyval) : pyval :=
  if is_none class_or_label_index then VInt 1 else class_or_label_index.

End ModelExplainerSpec.

(** ** A concrete project *)

(** One regressor instance with its files, used to run the methods. *)
Module RegressorExample.
Import Py ModelDenseRegressor.

(** The configuration file whose content is [config-A] holds four keys, among
    them [model_dir] and [model_name]; the one whose content is [config-empty]
    holds none. *)
Definition configs_A : gmap string pyval :=
  list_to_map [("nb_fit", VInt 3); ("x_col", VList [VStr "a"; VStr "b"]);
               ("model_dir", VStr "/elsewhere"); ("model_name", VStr "other")].

Definition json_load (content : string) : result pyval :=
  if bool_decide (content = "config-A") then Ok (VDict configs_A)
  else if bool_decide (content = "config-empty") then Ok (VDict ∅)
  else Err (LibraryError "json.JSONDecodeError" content).

Definition load_model_keras (content : string) (custom_objects : pyval) : result pyval :=
  Ok (VObject ("keras model of " +:+ content) None).

Definition pickle_load (content : string) : result pyval :=
  Ok (VObject ("pipeline of " +:+ content) (Some 2)).

(** Adam takes numbers that are not negative. *)
Definition Adam_raises (lr decay : pyval) : option exn :=
  match lr, decay with
  | VFloat a, VFloat b =>
      if PrimFloat.ltb a 0 || PrimFloat.ltb b 0
      then Some (ValueError "Expected a non-negative value") else None
  | _, _ => Some (TypeError "Expected a number")
  end.

(** Nothing can be copied into the directory [/nowhere]. *)
Definition copyfile_raises (files : gmap string string) (src dst : string) : option exn :=
  if String.prefix "/nowhere/" dst then Some (FileNotFoundError dst) else None.

(** Drawing the model writes a file in the model directory. *)
Definition _save_model_png (m : Model) : M state unit :=
  λ s, (Ok tt, set_fs <["/models/m1/model.png" := "png"]> s).

Definition instance : gmap string pyval :=
  list_to_map
    [("model_name", VStr "m1"); ("model_dir", VStr "/models/m1");
     ("model_type", VStr "regressor"); ("x_col", VList [VStr "x"]); ("y_col", VStr "y");
     ("columns_in", VNone); ("mandatory_columns", VNone); ("level_save", VStr "HIGH");
     ("batch_size", VInt 64); ("epochs", VInt 99); ("validation_split", VFloat 0.2);
     ("patience", VInt 5); ("keras_params", VDict {["decay" := VFloat 0.5]});
     ("custom_objects", VDict ∅); ("nb_fit", VInt 0); ("trained", VBool false)].

Definition files : gmap string string :=
  list_to_map [("/in/configurations.json", "config-A"); ("/in/best.hdf5", "weights");
               ("/in/preprocess_pipeline.pkl", "pipe")].

Definition s0 : state := State instance files 20 [].

(** The same instance under another name, elsewhere, with no file around. *)
Definition s1 : state :=
  State (<["model_name" := VStr "m2"]> (<["epochs" := VInt 7]> instance)) ∅ 20 [].

Definition kwargs : gmap string (option string) :=
  list_to_map [("configuration_path", Some "/in/configurations.json");
               ("hdf5_path", Some "/in/best.hdf5");
               ("preprocess_pipeline_path", Some "/in/preprocess_pipeline.pkl")].

(** [hdf5_path] left out. *)
Definition kwargs_none : gmap string (option string) :=
  list_to_map [("configuration_path", Some "/in/configurations.json");
               ("preprocess_pipeline_path", Some "/in/preprocess_pipeline.pkl")].

(** [hdf5_path] naming no file. *)
Definition kwargs_missing : gmap string (option string) :=
  list_to_map [("configuration_path", Some "/in/configurations.json");
               ("hdf5_path", Some "/in/absent.hdf5");
               ("preprocess_pipeline_path", Some "/in/preprocess_pipeline.pkl")].

(** The instance without its [x_col] attribute. *)
Definition s_without_x_col : state := State (delete "x_col" instance) files 20 [].

(** The instance with [x_col] left to [None]. *)
Definition s_x_col_none : state := State (<["x_col" := VNone]> instance) files 20 [].

(** The instance saving at level ['LOW']. *)
Definition s_low : state := State (<["level_save" := VStr "LOW"]> instance) files 20 [].

(** An instance with another column, one more entry in [keras_params], and a
    quieter logger. *)
Definition s_renamed : state :=
  State (<["x_col" := VList [VStr "z"]]>
           (<["keras_params" := VDict (<["dropout" := VFloat 0.3]> {["decay" := VFloat 0.5]})]>
              instance))
    ∅ 50 [].

(** The instance with a negative decay. *)
Definition s_negative_decay : state :=
  State (<["keras_params" := VDict {["decay" := VFloat (-0.5)]}]> instance) files 20 [].

(** The instance with a list for [keras_params]. *)
Definition s_keras_params_list : state :=
  State (<["keras_params" := VList []]> instance) files 20 [].

(** [configuration_path] naming the weights file, which is no JSON. *)
Definition kwargs_bad_configuration : gmap string (option string) :=
  list_to_map [("configuration_path", Some "/in/best.hdf5");
               ("hdf5_path", Some "/in/best.hdf5");
               ("preprocess_pipeline_path", Some "/in/preprocess_pipeline.pkl")].

(** The instance when its model directory already holds [best.hdf5], and a
    reload from that very file. *)
Definition s_own : state :=
  State instance (<["/models/m1/best.hdf5" := "weights"]> files) 20 [].

Definition kwargs_own : gmap string (option string) :=
  list_to_map [("configuration_path", Some "/in/configurations.json");
               ("hdf5_path", Some "/models/m1/best.hdf5");
               ("preprocess_pipeline_path", Some "/in/preprocess_pipeline.pkl")].

(** What [_get_model] returns on [s0] and on [s1]. *)
Definition model_of (s : state) : Model :=
  match (_get_model _save_model_png Adam_raises s).1 with
  | Ok m => m
  | Err _ => Model_new (Input []) []
  end.

Definition model0 : Model := Eval vm_compute in model_of s0.
Definition model1 : Model := Eval vm_compute in model_of s1.

(** What [_get_model] returns once [s0] is reloaded from [kwargs]. *)
Definition reloaded : state :=
  (reload_from_standalone json_load load_model_keras pickle_load copyfile_raises kwargs s0).2.


End RegressorExample.

(** One explainer with its model, preprocessors and a stand-in for LIME. *)
Module ExplainerExample.
Import Py ModelExplainer.

Definition get_preprocessor (key : pyval) : result pyval :=
  match key with
  | VStr k =>
      if bool_decide (k = "no_preprocess") then Ok (VCallable "identity")
      else if bool_decide (k = "preprocess_P1") then Ok (VCallable "preprocess_P1")
      else Err (ValueError k)
  | _ => Err (ValueError "preprocess_str")
  end.

(** What the callables of this example return: a preprocessor tags the texts,
    [predict_proba] answers with one row of probabilities for each text. *)
Definition call (f : pyval) (args : list pyval) : result pyval :=
  match f, args with
  | VCallable name, [VList texts] =>
      if bool_decide (name = "identity") then Ok (VList texts)
      else if bool_decide (name = "preprocess_P1") then Ok (VList (VStr "P1" :: texts))
      else if bool_decide (name = "predict_proba")
           then Ok (VList ((λ _, VList [VFloat 0.5; VFloat 0.5]) <$> texts))
      else Err (TypeError name)
  | _, _ => Err (TypeError "arguments")
  end.

(** An explanation remembers the labels and the number of features it was
    asked for. *)
Definition Explanation : Type := list pyval * pyval.

Definition lime_explain_instance (e : LimeTextExplainer) (content : pyval)
    (classifier_fn : pyval → result pyval) (labels : list pyval) (num_features : pyval)
  : result Explanation :=
  _ ← classifier_fn (VList [content]);
  mret (labels, num_features).

Definition as_html (e : Explanation) : result pyval := Ok (VStr "<html>").

Definition as_list (e : Explanation) (label : pyval) : result pyval :=
  Ok (VList [label; VList e.1]).

Definition model : gmap string pyval :=
  list_to_map [("predict_proba", VCallable "predict_proba");
               ("predict", VCallable "predict");
               ("list_classes", VList [VStr "neg"; VStr "pos"])].

(** A model whose [predict_proba] is a plain attribute. *)
Definition model_without_proba : gmap string pyval :=
  list_to_map [("predict_proba", VInt 0); ("list_classes", VList [VStr "neg"; VStr "pos"])].

Definition conf : gmap string pyval := {["preprocess_str" := VStr "preprocess_P1"]}.

Definition self : LimeExplainer :=
  MkLimeExplainer "model_explainer" model (VDict conf) (VList [VStr "neg"; VStr "pos"])
    (VInt 0) (MkLimeTextExplainer (VList [VStr "neg"; VStr "pos"])).

(** The same explainer configured with a preprocessing nobody registered. *)
Definition self_unknown : LimeExplainer :=
  MkLimeExplainer "model_explainer" model (VDict {["preprocess_str" := VStr "unknown"]})
    (VList [VStr "neg"; VStr "pos"]) (VInt 7)
    (MkLimeTextExplainer (VList [VStr "neg"; VStr "pos"])).

End ExplainerExample.

(** * Properties *)

(** ** Reasoning about method bodies *)

Module PyFacts.
Import Py.

Lemma bind_Ok {S A B} (m : M S A) (f : A → M S B) s b s' :
  (m ≫= f) s = (Ok b, s') ↔ ∃ a s1, m s = (Ok a, s1) ∧ f a s1 = (Ok b, s').
Proof.
  unfold mbind, M_bind. split.
  - destruct (m s) as [[a|e] s1]; [eauto | discriminate].
  - intros (a & s1 & -> & H). exact H.
Qed.

Lemma bind_Err {S A B} (m : M S A) (f : A → M S B) s e s' :
  (m ≫= f) s = (Err e, s') ↔
  m s = (Err e, s') ∨ ∃ a s1, m s = (Ok a, s1) ∧ f a s1 = (Err e, s').
Proof.
  unfold mbind, M_bind. split.
  - destruct (m s) as [[a|e1] s1]; [eauto | left; congruence].
  - intros [-> | (a & s1 & -> & H)]; [reflexivity | exact H].
Qed.

Lemma bind_run {S A B} (m : M S A) (f : A → M S B) s a s1 :
  m s = (Ok a, s1) → (m ≫= f) s = f a s1.
Proof. unfold mbind, M_bind. by intros ->. Qed.

Lemma lift_Ok {S A} (r : result A) (s s' : S) a :
  lift r s = (Ok a, s') ↔ r = Ok a ∧ s' = s.
Proof. unfold lift. split; [intros [= -> ->] | intros [-> ->]]; done. Qed.

Lemma ret_Ok {S A} (a b : A) (s s' : S) :
  (mret a : M S A) s = (Ok b, s') ↔ b = a ∧ s' = s.
Proof. unfold mret, M_ret. split; [intros [= -> ->] | intros [-> ->]]; done. Qed.

Section Stable.
Context {S : Type} (R : relation S) `{!PreOrder R}.

Lemma stable_ret {A} (a : A) : stable R (mret a : M S A).
Proof. intros s. reflexivity. Qed.

Lemma stable_raise {A} e : stable R (raise e : M S A).
Proof. intros s. reflexivity. Qed.

Lemma stable_lift {A} (r : result A) : stable R (lift r : M S A).
Proof. intros s. reflexivity. Qed.

Lemma stable_bind {A B} (m : M S A) (f : A → M S B) :
  stable R m → (∀ a, stable R (f a)) → stable R (m ≫= f).
Proof.
  intros Hm Hf s. specialize (Hm s). unfold mbind, M_bind.
  destruct (m s) as [[a|e] s1]; simpl in *; [|done].
  etrans; [exact Hm | apply Hf].
Qed.

Lemma stable_bind_at {A B} (m : M S A) (f : A → M S B) s :
  R s (m s).2 → (∀ a s1, m s = (Ok a, s1) → R s1 (f a s1).2) →
  R s ((m ≫= f) s).2.
Proof.
  intros Hm Hf. unfold mbind, M_bind.
  destruct (m s) as [[a|e] s1] eqn:Hms; simpl in *; [|done].
  etrans; [exact Hm | by apply Hf].
Qed.

Lemma stable_for {A} (l : list A) (body : A → M S unit) :
  (∀ x, x ∈ l → stable R (body x)) → stable R (for_ l body).
Proof.
  induction l as [|x l IH]; intros Hbody; simpl.
  - apply stable_ret.
  - apply stable_bind; [apply Hbody; left | intros _; apply IH].
    intros y Hy. apply Hbody. by right.
Qed.

End Stable.

Lemma for_app {S A} (l1 l2 : list A) (body : A → M S unit) s :
  for_ (l1 ++ l2) body s = (for_ l1 body;; for_ l2 body) s.
Proof.
  revert s. induction l1 as [|x l1 IH]; intros s; simpl; [done|].
  unfold mbind, M_bind in *. destruct (body x s) as [[[]|e] s1]; [apply IH | done].
Qed.

End PyFacts.

(** ** model_dense_regressor.py *)

Module ModelDenseRegressorFacts.
Import Py PySpec PyFacts ModelDenseRegressor ModelDenseRegressorSpec.

(** *** The primitives *)

Lemma getattr_Ok name s v s' :
  getattr name s = (Ok v, s') ↔ self s !! name = Some v ∧ s' = s.
Proof.
  unfold getattr. destruct (self s !! name); split;
    [intros [= -> ->] | intros [[= ->] ->] | intros [=] | intros [[=] _]]; done.
Qed.

Lemma setattr_Ok name v s u s' :
  setattr name v s = (Ok u, s') ↔ s' = set_self <[name := v]> s.
Proof. unfold setattr. destruct u. split; [intros [= <-] | intros ->]; done. Qed.

Lemma emit_Ok e s u s' :
  emit e s = (Ok u, s') ↔ s' = State (self s) (fs s) (logger_level s) (trace s ++ [e]).
Proof. unfold emit. destruct u. split; [intros [= <-] | intros ->]; done. Qed.

Lemma gets_Ok {A} (f : state → A) s a s' :
  gets f s = (Ok a, s') ↔ a = f s ∧ s' = s.
Proof. unfold gets. split; [intros [= <- <-] | intros [-> ->]]; done. Qed.

Lemma read_file_Ok path missing s c s' :
  read_file path missing s = (Ok c, s') ↔ fs s !! path = Some c ∧ s' = s.
Proof.
  unfold read_file. destruct (fs s !! path); split;
    [intros [= -> ->] | intros [[= ->] ->] | intros [=] | intros [[=] _]]; done.
Qed.

(** *** What a call leaves alone *)

#[local] Instance same_attr_preorder k : PreOrder (same_attr k).
Proof.
  split; [intros s; reflexivity |].
  intros s1 s2 s3 H1 H2. unfold same_attr in *. congruence.
Qed.

#[local] Instance same_store_preorder : PreOrder same_store.
Proof.
  split; [intros s; by repeat split |].
  intros s1 s2 s3 (?&?&?) (?&?&?). unfold same_store. repeat split; congruence.
Qed.

#[local] Instance extends_preorder : PreOrder extends.
Proof.
  split; [intros s; unfold extends; reflexivity |].
  intros s1 s2 s3 H1 H2. unfold extends in *. by etrans.
Qed.

Lemma same_store_attr k s s' : same_store s s' → same_attr k s s'.
Proof. intros (H & _). unfold same_attr. by rewrite H. Qed.

Lemma stable_same_store_attr {A} k (m : M state A) :
  stable same_store m → stable (same_attr k) m.
Proof. intros H s. apply same_store_attr, H. Qed.

Lemma getattr_same_store name : stable same_store (getattr name).
Proof. intros s. unfold getattr. by destruct (self s !! name). Qed.

Lemma gets_same_store {A} (f : state → A) : stable same_store (gets f).
Proof. by intros s. Qed.

Lemma emit_same_store e : stable same_store (emit e).
Proof. by intros s. Qed.

Lemma read_file_same_store path missing : stable same_store (read_file path missing).
Proof. intros s. unfold read_file. by destruct (fs s !! path). Qed.

Lemma setattr_same_attr k name v : name ≠ k → stable (same_attr k) (setattr name v).
Proof. intros Hne s. unfold same_attr. simpl. by rewrite lookup_insert_ne. Qed.

Lemma set_fs_same_attr k f : stable (same_attr k) (λ s, (Ok tt, set_fs f s)).
Proof. by intros s. Qed.

Lemma setattr_extends name v : stable extends (setattr name v).
Proof. intros s. unfold extends. reflexivity. Qed.

Lemma getattr_extends name : stable extends (getattr name).
Proof. intros s. unfold getattr, extends. by destruct (self s !! name). Qed.

Lemma gets_extends {A} (f : state → A) : stable extends (gets f).
Proof. intros s. unfold extends. reflexivity. Qed.

Lemma emit_extends e : stable extends (emit e).
Proof. intros s. unfold extends. simpl. by apply prefix_app_r. Qed.

Lemma read_file_extends path missing : stable extends (read_file path missing).
Proof. intros s. unfold read_file, extends. by destruct (fs s !! path). Qed.

Lemma set_fs_extends f : stable extends (λ s, (Ok tt, set_fs f s)).
Proof. intros s. unfold extends. reflexivity. Qed.

(** Goals [stable R m], by the structure of [m]. *)
Ltac stable_step :=
  lazymatch goal with
  | |- stable _ (_ ≫= _) => apply stable_bind; [apply _ | | intros ?]
  | |- stable _ (mret _) => apply stable_ret; apply _
  | |- stable _ (raise _) => apply stable_raise; apply _
  | |- stable _ (lift _) => apply stable_lift; apply _
  | |- stable _ (for_ _ _) => apply stable_for; [apply _ | intros ? ?]
  | |- stable _ (if ?b then _ else _) => destruct b
  | |- stable _ (match ?x with _ => _ end) => destruct x
  | |- stable same_store (getattr _) => apply getattr_same_store
  | |- stable same_store (gets _) => apply gets_same_store
  | |- stable same_store (emit _) => apply emit_same_store
  | |- stable same_store (read_file _ _) => apply read_file_same_store
  | |- stable extends (getattr _) => apply getattr_extends
  | |- stable extends (setattr _ _) => apply setattr_extends
  | |- stable extends (gets _) => apply gets_extends
  | |- stable extends (emit _) => apply emit_extends
  | |- stable extends (read_file _ _) => apply read_file_extends
  | |- stable extends (λ s, (Ok tt, set_fs _ s)) => apply set_fs_extends
  | |- stable (same_attr _) (λ s, (Ok tt, set_fs _ s)) => apply set_fs_same_attr
  | |- stable (same_attr _) (setattr _ _) => apply setattr_same_attr
  | |- stable (same_attr _) (getattr _) => apply stable_same_store_attr, getattr_same_store
  | |- stable (same_attr _) (gets _) => apply stable_same_store_attr, gets_same_store
  | |- stable (same_attr _) (emit _) => apply stable_same_store_attr, emit_same_store
  | |- stable (same_attr _) (read_file _ _) => apply stable_same_store_attr, read_file_same_store
  end.

(** *** The checks of [reload_from_standalone] *)

Lemma checks_same_store kwargs : stable same_store (reload_from_standalone_checks kwargs).
Proof.
  unfold reload_from_standalone_checks, os_path_exists. repeat stable_step.
Qed.

Lemma checks_extends kwargs : stable extends (reload_from_standalone_checks kwargs).
Proof.
  unfold reload_from_standalone_checks, os_path_exists. repeat stable_step.
Qed.

Lemma os_path_exists_run path s :
  os_path_exists path s =
  (Ok (bool_decide (is_Some (fs s !! path))),
   State (self s) (fs s) (logger_level s) (trace s ++ [EvExists path])).
Proof. reflexivity. Qed.

Lemma checks_Ok kwargs s r s' :
  reload_from_standalone_checks kwargs s = (Ok r, s') ↔
  ∃ cp hp pp,
    kwargs_get kwargs "configuration_path" = Some cp ∧
    kwargs_get kwargs "hdf5_path" = Some hp ∧
    kwargs_get kwargs "preprocess_pipeline_path" = Some pp ∧
    is_Some (fs s !! cp) ∧ is_Some (fs s !! hp) ∧ is_Some (fs s !! pp) ∧
    r = (cp, hp, pp) ∧ s' = checked cp hp pp s.
Proof.
  unfold reload_from_standalone_checks, checked.
  destruct (kwargs_get kwargs "configuration_path") as [cp|];
    [|split; [intros [=] | intros (?&?&?&[=]&_)]].
  destruct (kwargs_get kwargs "hdf5_path") as [hp|];
    [|split; [intros [=] | intros (?&?&?&_&[=]&_)]].
  destruct (kwargs_get kwargs "preprocess_pipeline_path") as [pp|];
    [|split; [intros [=] | intros (?&?&?&_&_&[=]&_)]].
  assert (∀ m : gmap string string, ∀ k, ¬ is_Some (m !! k) → m !! k = None) as Hnone.
  { intros m k. by rewrite eq_None_not_Some. }
  erewrite bind_run by apply os_path_exists_run.
  case_bool_decide; simpl;
    [|split; [intros [=] | intros (?&?&?&[= <-]&_&_&?&_); done]].
  erewrite bind_run by apply os_path_exists_run.
  case_bool_decide; simpl;
    [|split; [intros [=] | intros (?&?&?&_&[= <-]&_&_&?&_); done]].
  erewrite bind_run by apply os_path_exists_run.
  case_bool_decide; simpl;
    [|split; [intros [=] | intros (?&?&?&_&_&[= <-]&_&_&?&_); done]].
  rewrite <- !app_assoc. simpl. split.
  - intros [= <- <-]. by eauto 12.
  - intros (?&?&?&[= <-]&[= <-]&[= <-]&_&_&_&->&->). done.
Qed.

Lemma checks_Err kwargs s e s' :
  reload_from_standalone_checks kwargs s = (Err e, s') →
  (∃ msg, e = ValueError msg ∧ s' = s ∧
     (kwargs_get kwargs "configuration_path" = None ∨
      kwargs_get kwargs "hdf5_path" = None ∨
      kwargs_get kwargs "preprocess_pipeline_path" = None)) ∨
  (∃ msg cp hp pp tr, e = FileNotFoundError msg ∧
     kwargs_get kwargs "configuration_path" = Some cp ∧
     kwargs_get kwargs "hdf5_path" = Some hp ∧
     kwargs_get kwargs "preprocess_pipeline_path" = Some pp ∧
     (fs s !! cp = None ∨ fs s !! hp = None ∨ fs s !! pp = None) ∧
     s' = State (self s) (fs s) (logger_level s) (trace s ++ tr) ∧
     Forall (λ ev, is_file_access ev = false) tr).
Proof.
  unfold reload_from_standalone_checks.
  destruct (kwargs_get kwargs "configuration_path") as [cp|];
    [|intros [= <- <-]; left; eauto 10].
  destruct (kwargs_get kwargs "hdf5_path") as [hp|];
    [|intros [= <- <-]; left; eauto 10].
  destruct (kwargs_get kwargs "preprocess_pipeline_path") as [pp|];
    [|intros [= <- <-]; left; eauto 10].
  assert (∀ m : gmap string string, ∀ k, ¬ is_Some (m !! k) → m !! k = None) as Hnone.
  { intros m k. by rewrite eq_None_not_Some. }
  intros H. right. revert H.
  erewrite bind_run by apply os_path_exists_run.
  case_bool_decide; simpl;
    [|intros [= <- <-]; do 5 eexists; repeat split; [by eauto using Hnone | repeat constructor]].
  erewrite bind_run by apply os_path_exists_run.
  case_bool_decide; simpl;
    [|rewrite <- ?app_assoc; intros [= <- <-]; do 5 eexists; repeat split; [by eauto using Hnone | repeat constructor]].
  erewrite bind_run by apply os_path_exists_run.
  case_bool_decide; simpl;
    [|rewrite <- ?app_assoc; intros [= <- <-]; do 5 eexists; repeat split; [by eauto using Hnone | repeat constructor]].
  intros [=].
Qed.

(** *** [reload_from_standalone] *)

Section Reload.

Variable json_load : string → result pyval.
Variable load_model_keras : string → pyval → result pyval.
Variable pickle_load : string → result pyval.
Variable copyfile_raises : gmap string string → string → string → option exn.

#[local] Abbreviation reload :=
  (reload_from_standalone json_load load_model_keras pickle_load copyfile_raises).
#[local] Abbreviation body :=
  (reload_from_standalone_body json_load load_model_keras pickle_load copyfile_raises).
#[local] Abbreviation copyfile := (shutil_copyfile copyfile_raises).

Lemma shutil_copyfile_Ok src dst s u s' :
  copyfile src dst s = (Ok u, s') →
  ∃ c, fs s !! src = Some c ∧ src ≠ dst ∧ copyfile_raises (fs s) src dst = None ∧
       s' = State (self s) (<[dst := c]> (fs s)) (logger_level s)
              (trace s ++ [EvCopyFile src dst]).
Proof.
  unfold shutil_copyfile. intros H.
  apply bind_Ok in H as ([] & ? & ->%emit_Ok & H).
  apply bind_Ok in H as (c & ? & [Hc ->]%read_file_Ok & H).
  case_bool_decide as Hsame; [discriminate H|].
  apply bind_Ok in H as (refused & ? & [-> ->]%gets_Ok & H). simpl in *.
  destruct (copyfile_raises (fs s) src dst) eqn:Hrefused; [discriminate H|].
  injection H as <-. by exists c.
Qed.

Lemma body_extends cp hp pp : stable extends (body cp hp pp).
Proof.
  unfold reload_from_standalone_body, open_, shutil_copyfile.
  repeat stable_step.
Qed.

Lemma body_same_attr k cp hp pp :
  k ∉ written_attributes → stable (same_attr k) (body cp hp pp).
Proof.
  intros Hk.
  assert (∀ x, x ∈ written_attributes → x ≠ k) as Hne by (intros x Hx ->; done).
  unfold reload_from_standalone_body, open_, shutil_copyfile.
  repeat stable_step; apply Hne; unfold written_attributes;
    try (simpl; repeat constructor; fail).
  do 2 right. apply elem_of_app. by left.
Qed.

Lemma reload_same_attr k kwargs :
  k ∉ written_attributes → stable (same_attr k) (reload kwargs).
Proof.
  intros Hk. unfold reload_from_standalone.
  apply stable_bind; [apply _ | |].
  - apply stable_same_store_attr, checks_same_store.
  - intros [[cp hp] pp]. by apply body_same_attr.
Qed.

(** The loop over [reload_attributes], on a list [l] of distinct names. *)
Lemma reload_loop_Ok d l s u s' :
  NoDup l →
  for_ l (λ attribute,
    current ← getattr attribute;
    v ← lift (dict_get (VDict d) attribute current);
    setattr attribute v) s = (Ok u, s') →
  fs s' = fs s ∧ logger_level s' = logger_level s ∧ trace s' = trace s ∧
  (∀ k, k ∈ l → ∃ cur, self s !! k = Some cur ∧ self s' !! k = Some (override d k cur)) ∧
  (∀ k, k ∉ l → self s' !! k = self s !! k).
Proof.
  intros Hl. revert s. induction Hl as [|x l Hx Hl IH]; intros s H; simpl in H.
  - apply ret_Ok in H as [_ ->]. split_and!; try done. intros k Hk. by inversion Hk.
  - apply bind_Ok in H as ([] & s1 & H1 & H).
    apply bind_Ok in H1 as (cur & s2 & Hcur & H1). apply getattr_Ok in Hcur as [Hcur ->].
    apply bind_Ok in H1 as (v & s3 & Hv & H1). apply lift_Ok in Hv as [[= <-] ->].
    apply setattr_Ok in H1 as ->. fold (override d x cur) in H.
    apply IH in H as (Hfs & Hlvl & Htr & Hin & Hout). simpl in *.
    split_and!; try done.
    + intros k [->|Hk]%elem_of_cons.
      * exists cur. split; [done|]. rewrite Hout by done. by rewrite lookup_insert_eq.
      * destruct (Hin k Hk) as (c & Hc & Hk'). exists c. split; [|done].
        rewrite lookup_insert_ne in Hc; [done|]. intros ->. done.
    + intros k Hk. rewrite Hout by (intros ?; apply Hk; by right).
      rewrite lookup_insert_ne; [done|]. intros ->. apply Hk. by left.
Qed.


Lemma reload_attributes_NoDup : NoDup reload_attributes.
Proof. unfold reload_attributes. apply NoDup_ListNoDup. repeat constructor; simpl; intuition discriminate. Qed.

Lemma not_reload_attribute k :
  k ∈ ["nb_fit"; "trained"; "custom_objects"; "model_dir"; "model_name"; "model";
       "preprocess_pipeline"] →
  k ∉ reload_attributes.
Proof.
  unfold reload_attributes. intros Hk%list_elem_of_In Hk'%list_elem_of_In. simpl in *.
  intuition (subst; discriminate).
Qed.

Lemma body_Ok cp hp pp s u s' :
  body cp hp pp s = (Ok u, s') →
  ∃ content d mid weights custom model dir dst pcontent pipeline,
    fs s !! cp = Some content ∧ json_load content = Ok (VDict d) ∧
    mid !! "nb_fit" = Some (override d "nb_fit" (VInt 1)) ∧
    mid !! "trained" = Some (override d "trained" (VBool true)) ∧
    (∀ k, k ∈ reload_attributes →
       ∃ cur, self s !! k = Some cur ∧ mid !! k = Some (override d k cur)) ∧
    (∀ k, k ∉ "nb_fit" :: "trained" :: reload_attributes → mid !! k = self s !! k) ∧
    fs s !! hp = Some weights ∧
    self s !! "custom_objects" = Some custom ∧
    load_model_keras weights custom = Ok model ∧
    self s !! "model_dir" = Some dir ∧
    os_path_join dir "best.hdf5" = Ok dst ∧ hp ≠ dst ∧
    <[dst := weights]> (fs s) !! pp = Some pcontent ∧
    pickle_load pcontent = Ok pipeline ∧
    s' = State (<["preprocess_pipeline" := pipeline]> (<["model" := model]> mid))
           (<[dst := weights]> (fs s)) (logger_level s)
           (trace s ++ [EvOpen cp "r"; EvJsonLoad; EvLoadModel hp;
                        EvCopyFile hp dst; EvOpen pp "rb"; EvPickleLoad]).
Proof.
  unfold reload_from_standalone_body, open_. intros H.
  apply bind_Ok in H as (content & s1 & Hopen & H).
  apply bind_Ok in Hopen as ([] & ? & ->%emit_Ok & [Hcontent ->]%read_file_Ok).
  apply bind_Ok in H as ([] & ? & ->%emit_Ok & H).
  apply bind_Ok in H as (configs & ? & [Hjson ->]%lift_Ok & H).
  apply bind_Ok in H as (nb_fit & ? & [Hnb ->]%lift_Ok & H).
  destruct configs as [| | | | | |d| |]; try discriminate Hnb.
  injection Hnb as <-.
  apply bind_Ok in H as ([] & ? & ->%setattr_Ok & H).
  apply bind_Ok in H as (trained & ? & [[= <-] ->]%lift_Ok & H).
  apply bind_Ok in H as ([] & ? & ->%setattr_Ok & H).
  apply bind_Ok in H as ([] & s2 & Hloop & H).
  apply reload_loop_Ok in Hloop as (Hfs & Hlvl & Htr & Hin & Hout);
    [|apply reload_attributes_NoDup].
  destruct s2 as [mid fs2 lvl2 tr2]. simpl in *. subst fs2 lvl2 tr2.
  fold (override d "nb_fit" (VInt 1)) in *. fold (override d "trained" (VBool true)) in *.
  apply bind_Ok in H as (custom & ? & [Hcustom ->]%getattr_Ok & H).
  apply bind_Ok in H as ([] & ? & ->%emit_Ok & H).
  apply bind_Ok in H as (weights & ? & [Hweights ->]%read_file_Ok & H).
  apply bind_Ok in H as (model & ? & [Hmodel ->]%lift_Ok & H).
  apply bind_Ok in H as ([] & ? & ->%setattr_Ok & H).
  apply bind_Ok in H as (dir & ? & [Hdir ->]%getattr_Ok & H).
  apply bind_Ok in H as (dst & ? & [Hdst ->]%lift_Ok & H).
  apply bind_Ok in H as ([] & s3 & Hcopy & H).
  apply shutil_copyfile_Ok in Hcopy as (weights' & Hweights' & Hsame & _ & ->).
  apply bind_Ok in H as (pcontent & ? & Hopen & H).
  apply bind_Ok in Hopen as ([] & ? & ->%emit_Ok & [Hpcontent ->]%read_file_Ok).
  apply bind_Ok in H as ([] & ? & ->%emit_Ok & H).
  apply bind_Ok in H as (pipeline & ? & [Hpipeline ->]%lift_Ok & H).
  apply setattr_Ok in H as ->.
  simpl in *. rewrite Hweights in Hweights'. injection Hweights' as <-.
  rewrite lookup_insert_ne in Hdir by done.
  assert (∀ k, k ∉ "nb_fit" :: "trained" :: reload_attributes → mid !! k = self s !! k)
    as Hframe.
  { intros k Hk. rewrite Hout by (intros ?; apply Hk; by do 2 right).
    rewrite !lookup_insert_ne; [done | |]; intros <-; apply Hk; repeat constructor. }
  assert (∀ k, k ∈ ["custom_objects"; "model_dir"] → mid !! k = self s !! k) as Hkeep.
  { intros k Hk. apply Hframe. intros [->|[->|Hk']%elem_of_cons]%elem_of_cons.
    - apply list_elem_of_In in Hk. simpl in Hk. intuition discriminate.
    - apply list_elem_of_In in Hk. simpl in Hk. intuition discriminate.
    - revert Hk'. apply not_reload_attribute.
      apply list_elem_of_In. apply list_elem_of_In in Hk. simpl in *. intuition. }
  rewrite Hkeep in Hcustom, Hdir by repeat constructor.
  exists content, d, mid, weights, custom, model, dir, dst, pcontent, pipeline.
  split_and!; try done.
  - rewrite Hout by (apply not_reload_attribute; repeat constructor).
    rewrite lookup_insert_ne by done. by rewrite lookup_insert_eq.
  - rewrite Hout by (apply not_reload_attribute; repeat constructor).
    by rewrite lookup_insert_eq.
  - intros k Hk. destruct (Hin k Hk) as (cur & Hcur & Hmid). exists cur. split; [|done].
    rewrite !lookup_insert_ne in Hcur; [done | |]; intros <-;
      revert Hk; apply not_reload_attribute; repeat constructor.
  - unfold set_self. simpl. by rewrite <- !app_assoc.
Qed.

Lemma reload_checks_failed kwargs s e s' :
  reload_from_standalone_checks kwargs s = (Err e, s') →
  reload kwargs s = (Err e, s').
Proof. intros H. unfold reload_from_standalone. apply bind_Err. by left. Qed.

(** C1. [reload_from_standalone] raises [ValueError] when one of
    [configuration_path], [hdf5_path], [preprocess_pipeline_path] is [None],
    and then nothing at all has been done; when the three are supplied and one
    of them names no existing file it raises [FileNotFoundError], having made
    existence tests only; when the three name existing files, the rest of the
    method (which opens and loads them) runs after the three existence tests;
    and the checks raise these errors for no other reason. *)
Theorem reload_from_standalone_validation kwargs s :
  (some_none kwargs → ∃ msg, reload kwargs s = (Err (ValueError msg), s)) ∧
  (∀ cp hp pp, supplied kwargs cp hp pp → some_missing s cp hp pp →
     ∃ msg tr,
       reload kwargs s =
         (Err (FileNotFoundError msg),
          State (self s) (fs s) (logger_level s) (trace s ++ tr)) ∧
       Forall (λ ev, is_file_access ev = false) tr) ∧
  (∀ cp hp pp, supplied kwargs cp hp pp →
     is_Some (fs s !! cp) → is_Some (fs s !! hp) → is_Some (fs s !! pp) →
     reload kwargs s = body cp hp pp (checked cp hp pp s) ∧
     trace s ++ [EvExists cp; EvExists hp; EvExists pp]
       `prefix_of` trace (reload kwargs s).2) ∧
  (∀ e s', reload_from_standalone_checks kwargs s = (Err e, s') →
     (∃ msg, e = ValueError msg ∧ some_none kwargs) ∨
     (∃ msg cp hp pp, e = FileNotFoundError msg ∧
        supplied kwargs cp hp pp ∧ some_missing s cp hp pp)).
Proof.
  unfold some_none, supplied, some_missing. split_and!.
  - intros Hnone.
    destruct (reload_from_standalone_checks kwargs s) as [[r|e] s'] eqn:Hc.
    + apply checks_Ok in Hc as (?&?&?&?&?&?&_). destruct Hnone as [|[|]]; congruence.
    + pose proof (reload_checks_failed _ _ _ _ Hc) as Hr.
      apply checks_Err in Hc as [(msg & -> & -> & _)|(?&?&?&?&?&_&?&?&?&_)].
      * by exists msg.
      * destruct Hnone as [|[|]]; congruence.
  - intros cp hp pp (Hcp & Hhp & Hpp) Hmiss.
    destruct (reload_from_standalone_checks kwargs s) as [[r|e] s'] eqn:Hc.
    + apply checks_Ok in Hc as (?&?&?&?&?&?&[]&[]&[]&_).
      destruct Hmiss as [|[|]]; congruence.
    + pose proof (reload_checks_failed _ _ _ _ Hc) as Hr.
      apply checks_Err in Hc as [(?&_&_&[|[|]])|(msg&?&?&?&tr&->&_&_&_&_&->&Htr)];
        try congruence.
      by exists msg, tr.
  - intros cp hp pp (Hcp & Hhp & Hpp) Hc Hh Hp.
    assert (reload_from_standalone_checks kwargs s = (Ok (cp, hp, pp), checked cp hp pp s))
      as Hchk by (apply checks_Ok; eauto 12).
    assert (reload kwargs s = body cp hp pp (checked cp hp pp s)) as ->.
    { unfold reload_from_standalone. by rewrite (bind_run _ _ _ _ _ Hchk). }
    split; [done|]. apply (body_extends cp hp pp (checked cp hp pp s)).
  - intros e s' Hc.
    apply checks_Err in Hc as [(msg&->&_&?)|(msg&cp&hp&pp&?&->&?&?&?&?&_)].
    + left. by exists msg.
    + right. by exists msg, cp, hp, pp.
Qed.

(** C8. When the checks of [reload_from_standalone] raise (a [ValueError] or
    a [FileNotFoundError]), the call raises that error and the instance and
    the files are as before the call: no attribute is assigned and no file is
    created. *)
Theorem reload_validation_failure_leaves_state kwargs s e s' :
  reload_from_standalone_checks kwargs s = (Err e, s') →
  reload kwargs s = (Err e, s') ∧
  ((∃ msg, e = ValueError msg) ∨ (∃ msg, e = FileNotFoundError msg)) ∧
  self s' = self s ∧ fs s' = fs s ∧ logger_level s' = logger_level s.
Proof.
  intros Hc. split; [by apply reload_checks_failed|]. split.
  - apply checks_Err in Hc as [(msg&->&_)|(msg&?&?&?&?&->&_)]; eauto.
  - pose proof (checks_same_store kwargs s) as Hs. by rewrite Hc in Hs.
Qed.

(** C9. Whatever the outcome of [reload_from_standalone] and whatever the
    loaded configuration contains, the attributes [model_name] and
    [model_dir] of the instance are what they were before the call. *)
Theorem reload_keeps_model_name_and_model_dir kwargs s :
  self (reload kwargs s).2 !! "model_name" = self s !! "model_name" ∧
  self (reload kwargs s).2 !! "model_dir" = self s !! "model_dir".
Proof.
  assert (∀ k, k ∈ ["model_name"; "model_dir"] → k ∉ written_attributes) as Hk.
  { unfold written_attributes, reload_attributes.
    intros k Hk%list_elem_of_In Hk'%list_elem_of_In. simpl in *.
    intuition (subst; discriminate). }
  split; apply (reload_same_attr _ kwargs); apply Hk; repeat constructor.
Qed.

Lemma reload_Ok kwargs s u s' :
  reload kwargs s = (Ok u, s') →
  ∃ cp hp pp,
    supplied kwargs cp hp pp ∧
    is_Some (fs s !! cp) ∧ is_Some (fs s !! hp) ∧ is_Some (fs s !! pp) ∧
    body cp hp pp (checked cp hp pp s) = (Ok u, s').
Proof.
  unfold reload_from_standalone. intros H.
  apply bind_Ok in H as ([[cp hp] pp] & s1 & Hc & H).
  apply checks_Ok in Hc as (?&?&?&?&?&?&?&?&?&[= <- <- <-]&->).
  exists cp, hp, pp. by unfold supplied.
Qed.

(** C3 (amended). After a successful [reload_from_standalone] that loaded
    the mapping [d] from the configuration file: each of the thirteen
    attributes [nb_fit], [trained], [model_type], [x_col], [y_col],
    [columns_in], [mandatory_columns], [level_save], [batch_size], [epochs],
    [validation_split], [patience], [keras_params] has the file's value when
    its name is a key of [d]; when it is not, the eleven attributes other
    than [nb_fit] and [trained] keep the value the instance had, while
    [nb_fit] becomes [1] and [trained] becomes [True]. *)
Theorem reload_applies_configuration kwargs s s' cp content d :
  kwargs_get kwargs "configuration_path" = Some cp →
  fs s !! cp = Some content →
  json_load content = Ok (VDict d) →
  reload kwargs s = (Ok tt, s') →
  (∀ a v, a ∈ handled_attributes → d !! a = Some v → self s' !! a = Some v) ∧
  (∀ a, a ∈ kept_attributes → d !! a = None →
     is_Some (self s !! a) ∧ self s' !! a = self s !! a) ∧
  (d !! "nb_fit" = None → self s' !! "nb_fit" = Some (VInt 1)) ∧
  (d !! "trained" = None → self s' !! "trained" = Some (VBool true)).
Proof.
  intros Hcp Hcontent Hjson Hrun.
  apply reload_Ok in Hrun as (cp' & hp & pp & (Hcp' & _ & _) & _ & _ & _ & Hbody).
  assert (cp' = cp) as -> by congruence.
  apply body_Ok in Hbody
    as (content' & d' & mid & ? & ? & model & ? & ? & ? & pipeline & Hcontent' & Hjson'
        & Hnb & Htr & Hin & _ & _ & _ & _ & _ & _ & _ & _ & _ & ->).
  simpl in *.
  assert (content' = content) as -> by congruence.
  assert (d' = d) as -> by congruence.
  assert (∀ a, a ∈ handled_attributes →
            <["preprocess_pipeline" := pipeline]> (<["model" := model]> mid) !! a = mid !! a)
    as Hlook.
  { intros a Ha%list_elem_of_In.
    rewrite !lookup_insert_ne; [done | |]; intros <-; simpl in Ha; intuition discriminate. }
  assert (∀ a, a ∈ kept_attributes → a ∈ handled_attributes) as Hsub.
  { intros a Ha. by do 2 right. }
  split_and!.
  - intros a v Ha Hv. rewrite Hlook by done.
    apply elem_of_cons in Ha as [->|Ha]; [by rewrite Hnb; unfold override; rewrite Hv|].
    apply elem_of_cons in Ha as [->|Ha]; [by rewrite Htr; unfold override; rewrite Hv|].
    destruct (Hin a Ha) as (cur & _ & ->). unfold override. by rewrite Hv.
  - intros a Ha Hnone. rewrite Hlook by auto.
    destruct (Hin a Ha) as (cur & Hcur & ->). unfold override. rewrite Hnone, Hcur. eauto.
  - intros Hnone. rewrite Hlook by repeat constructor.
    rewrite Hnb. unfold override. by rewrite Hnone.
  - intros Hnone. rewrite Hlook by repeat constructor.
    rewrite Htr. unfold override. by rewrite Hnone.
Qed.

(** C7. A successful [reload_from_standalone] has, in this order, loaded
    [self.model] from the file at [hdf5_path], copied that file to
    [os.path.join(model_dir, 'best.hdf5')] and loaded
    [self.preprocess_pipeline] from the file at [preprocess_pipeline_path]. *)
Theorem reload_loads_model_copies_weights_loads_pipeline kwargs s s' :
  reload kwargs s = (Ok tt, s') →
  ∃ cp hp pp weights custom model dir dst pcontent pipeline,
    supplied kwargs cp hp pp ∧
    (* the model *)
    fs s !! hp = Some weights ∧
    self s !! "custom_objects" = Some custom ∧
    load_model_keras weights custom = Ok model ∧
    self s' !! "model" = Some model ∧
    (* the copy *)
    self s !! "model_dir" = Some dir ∧
    os_path_join dir "best.hdf5" = Ok dst ∧
    fs s' = <[dst := weights]> (fs s) ∧
    (* the pipeline *)
    fs s' !! pp = Some pcontent ∧
    pickle_load pcontent = Ok pipeline ∧
    self s' !! "preprocess_pipeline" = Some pipeline ∧
    (* the order *)
    trace s' = trace s ++
      [EvExists cp; EvExists hp; EvExists pp; EvOpen cp "r"; EvJsonLoad;
       EvLoadModel hp; EvCopyFile hp dst; EvOpen pp "rb"; EvPickleLoad].
Proof.
  intros Hrun.
  apply reload_Ok in Hrun as (cp & hp & pp & Hsup & _ & _ & _ & Hbody).
  apply body_Ok in Hbody
    as (content & d & mid & weights & custom & model & dir & dst & pcontent & pipeline
        & _ & _ & _ & _ & _ & _ & Hw & Hcustom & Hmodel & Hdir & Hdst & _ & Hpc & Hpipe & ->).
  exists cp, hp, pp, weights, custom, model, dir, dst, pcontent, pipeline.
  simpl in *. split_and!; try done.
  - rewrite lookup_insert_ne by done. by rewrite lookup_insert_eq.
  - by rewrite lookup_insert_eq.
  - by rewrite <- app_assoc.
Qed.

(** *** What [reload_from_standalone] leaves alone, whatever its outcome *)

#[local] Instance keeps_file_preorder p : PreOrder (keeps_file p).
Proof.
  split; [intros s; reflexivity |].
  intros s1 s2 s3 H1 H2. unfold keeps_file in *. congruence.
Qed.

#[local] Instance writes_best_only_preorder : PreOrder writes_best_only.
Proof.
  split; [intros s; by split |].
  intros s1 s2 s3 [Hd1 H1] [Hd2 H2]. split; [congruence|].
  intros p Hp. rewrite H2, H1; [done | done |].
  intros (dir & Hdir & Hjoin). apply Hp. exists dir. split; [congruence | done].
Qed.

Lemma stable_weaken {A} (R1 R2 : relation state) (m : M state A) :
  (∀ s s', R1 s s' → R2 s s') → stable R1 m → stable R2 m.
Proof. intros HR Hm s. apply HR, Hm. Qed.

Lemma same_store_keeps_file p s s' : same_store s s' → keeps_file p s s'.
Proof. intros (_ & H & _). unfold keeps_file. by rewrite H. Qed.

Lemma same_store_writes_best_only s s' : same_store s s' → writes_best_only s s'.
Proof. intros (Hself & Hfs & _). split; [by rewrite Hself | intros p _; by rewrite Hfs]. Qed.

Lemma setattr_keeps_file p name v : stable (keeps_file p) (setattr name v).
Proof. by intros s. Qed.

Lemma setattr_writes_best_only name v :
  name ≠ "model_dir" → stable writes_best_only (setattr name v).
Proof.
  intros Hne s. split; [simpl; by rewrite lookup_insert_ne | intros p _; reflexivity].
Qed.

Lemma shutil_copyfile_keeps_file src dst :
  stable (keeps_file src) (copyfile src dst).
Proof.
  intros s.
  unfold shutil_copyfile, keeps_file, mbind, M_bind, emit, read_file, gets, raise. simpl.
  destruct (fs s !! src) as [c|] eqn:Hsrc; simpl; [|by rewrite Hsrc].
  case_bool_decide; simpl; [by rewrite Hsrc|].
  destruct (copyfile_raises (fs s) src dst); simpl; [by rewrite Hsrc|].
  by rewrite lookup_insert_ne.
Qed.

Lemma copy_stage_writes_best_only hp (rest : M state unit) :
  stable writes_best_only rest →
  stable writes_best_only
    (model_dir ← getattr "model_dir";
     new_hdf5_path ← lift (os_path_join model_dir "best.hdf5");
     copyfile hp new_hdf5_path;; rest).
Proof.
  intros Hrest s.
  unfold shutil_copyfile, mbind, M_bind, getattr, lift, emit, read_file, gets, raise. simpl.
  destruct (self s !! "model_dir") as [dir|] eqn:Hdir; [|reflexivity].
  destruct (os_path_join dir "best.hdf5") as [dst|e] eqn:Hjoin; simpl; [|reflexivity].
  destruct (fs s !! hp) as [c|]; simpl; [|by apply same_store_writes_best_only].
  case_bool_decide; simpl; [by apply same_store_writes_best_only|].
  destruct (copyfile_raises (fs s) hp dst); simpl; [by apply same_store_writes_best_only|].
  etrans; [|apply Hrest]. split; [done|]. intros p Hp. simpl.
  rewrite lookup_insert_ne; [done|]. intros <-. apply Hp. by exists dir.
Qed.

(** Goals [stable R m] for the two relations on files. *)
Ltac files_step :=
  lazymatch goal with
  | |- stable writes_best_only (getattr "model_dir" ≫= _) =>
      apply copy_stage_writes_best_only
  | |- stable _ (_ ≫= _) => apply stable_bind; [apply _ | | intros ?]
  | |- stable _ (mret _) => apply stable_ret; apply _
  | |- stable _ (raise _) => apply stable_raise; apply _
  | |- stable _ (lift _) => apply stable_lift; apply _
  | |- stable _ (for_ _ _) => apply stable_for; [apply _ | intros ? ?]
  | |- stable (keeps_file ?p) (shutil_copyfile _ ?p _) => apply shutil_copyfile_keeps_file
  | |- stable (keeps_file _) (setattr _ _) => apply setattr_keeps_file
  | |- stable writes_best_only (setattr _ _) => apply setattr_writes_best_only
  | |- stable (keeps_file _) (getattr _) =>
      apply (stable_weaken same_store), getattr_same_store; apply same_store_keeps_file
  | |- stable (keeps_file _) (emit _) =>
      apply (stable_weaken same_store), emit_same_store; apply same_store_keeps_file
  | |- stable (keeps_file _) (read_file _ _) =>
      apply (stable_weaken same_store), read_file_same_store; apply same_store_keeps_file
  | |- stable writes_best_only (getattr _) =>
      apply (stable_weaken same_store), getattr_same_store; apply same_store_writes_best_only
  | |- stable writes_best_only (emit _) =>
      apply (stable_weaken same_store), emit_same_store; apply same_store_writes_best_only
  | |- stable writes_best_only (read_file _ _) =>
      apply (stable_weaken same_store), read_file_same_store; apply same_store_writes_best_only
  end.

(** X1. Whatever its outcome, [reload_from_standalone] changes no attribute
    of the instance besides [nb_fit], [trained], the eleven attributes of its
    loop, [model] and [preprocess_pipeline]. *)
Theorem reload_changes_written_attributes_only kwargs s k :
  k ∉ written_attributes →
  self (reload kwargs s).2 !! k = self s !! k.
Proof. intros Hk. by apply (reload_same_attr k kwargs). Qed.

(** X3. Whatever its outcome, [reload_from_standalone] leaves the file at
    [hdf5_path] as it was. *)
Theorem reload_keeps_weights_file kwargs s hp :
  kwargs_get kwargs "hdf5_path" = Some hp →
  fs (reload kwargs s).2 !! hp = fs s !! hp.
Proof.
  intros Hhp. change (keeps_file hp s (reload kwargs s).2).
  unfold reload_from_standalone. apply stable_bind_at; [apply _ | |].
  - apply same_store_keeps_file, checks_same_store.
  - intros [[cp hp'] pp] s1 (?&?&?&_&Hhp'&_&_&_&_&[= <- <- <-]&_)%checks_Ok.
    assert (hp' = hp) as -> by congruence.
    revert s1. change (stable (keeps_file hp) (body cp hp pp)).
    unfold reload_from_standalone_body, open_. repeat files_step.
Qed.

(** X2. Whatever its outcome, [reload_from_standalone] creates, changes or
    removes no file other than [os.path.join(model_dir, 'best.hdf5')] of the
    instance. *)
Theorem reload_writes_best_hdf5_only kwargs s p :
  ¬ best_hdf5 s p →
  fs (reload kwargs s).2 !! p = fs s !! p.
Proof.
  intros Hp. revert p Hp.
  assert (stable writes_best_only (reload kwargs)) as H; [|apply (H s)].
  unfold reload_from_standalone. apply stable_bind; [apply _ | |].
  - apply (stable_weaken same_store), checks_same_store. apply same_store_writes_best_only.
  - intros [[cp hp] pp].
    unfold reload_from_standalone_body, open_. repeat files_step.
    all: try discriminate.
    intros ->. revert select (_ ∈ reload_attributes).
    apply not_reload_attribute. repeat constructor.
Qed.

(** *** Running [reload_from_standalone] forwards *)

Lemma getattr_at name s v : self s !! name = Some v → getattr name s = (Ok v, s).
Proof. intros H. by apply getattr_Ok. Qed.

Lemma read_file_at path missing s c :
  fs s !! path = Some c → read_file path missing s = (Ok c, s).
Proof. intros H. by apply read_file_Ok. Qed.

Lemma open_at path mode s c :
  fs s !! path = Some c →
  open_ path mode s =
    (Ok c, State (self s) (fs s) (logger_level s) (trace s ++ [EvOpen path mode])).
Proof. intros H. unfold open_, mbind, M_bind, emit, read_file. simpl. by rewrite H. Qed.

Lemma shutil_copyfile_at src dst s c :
  fs s !! src = Some c → src ≠ dst → copyfile_raises (fs s) src dst = None →
  copyfile src dst s =
    (Ok tt, State (self s) (<[dst := c]> (fs s)) (logger_level s)
              (trace s ++ [EvCopyFile src dst])).
Proof.
  intros H Hne Hok. unfold shutil_copyfile, mbind, M_bind, emit, read_file, gets. simpl.
  rewrite H. rewrite bool_decide_eq_false_2 by done. simpl. by rewrite Hok.
Qed.

Lemma shutil_copyfile_same src s c :
  fs s !! src = Some c →
  copyfile src src s =
    (Err (SameFileError src),
     State (self s) (fs s) (logger_level s) (trace s ++ [EvCopyFile src src])).
Proof.
  intros H. unfold shutil_copyfile, mbind, M_bind, emit, read_file. simpl.
  rewrite H. by rewrite bool_decide_eq_true_2.
Qed.

(** One call of a method body after the other. *)
Ltac exec :=
  repeat first
    [ erewrite bind_run by (apply getattr_at; simpl; eassumption)
    | erewrite bind_run by (apply read_file_at; simpl; eassumption)
    | erewrite bind_run by reflexivity ].

Lemma reload_after_checks kwargs s cp hp pp :
  supplied kwargs cp hp pp →
  is_Some (fs s !! cp) → is_Some (fs s !! hp) → is_Some (fs s !! pp) →
  reload kwargs s = body cp hp pp (checked cp hp pp s).
Proof.
  intros (Hcp & Hhp & Hpp) Hc Hh Hp.
  assert (reload_from_standalone_checks kwargs s = (Ok (cp, hp, pp), checked cp hp pp s))
    as Hchk by (apply checks_Ok; eauto 12).
  unfold reload_from_standalone. by rewrite (bind_run _ _ _ _ _ Hchk).
Qed.

(** The loop goes through when the instance has every attribute of [l]. *)
Lemma reload_loop_run d l s :
  (∀ a, a ∈ l → is_Some (self s !! a)) →
  ∃ mid,
    for_ l (λ attribute,
      current ← getattr attribute;
      v ← lift (dict_get (VDict d) attribute current);
      setattr attribute v) s = (Ok tt, State mid (fs s) (logger_level s) (trace s)) ∧
    (∀ k, is_Some (self s !! k) → is_Some (mid !! k)) ∧
    (∀ k, k ∉ l → mid !! k = self s !! k).
Proof.
  revert s. induction l as [|x l IH]; intros s Hl; simpl.
  - exists (self s). by destruct s.
  - destruct (Hl x) as [cur Hcur]; [by left|].
    destruct (IH (set_self <[x := override d x cur]> s)) as (mid & Hrun & Hsome & Hout).
    { intros a Ha. simpl. apply lookup_insert_is_Some'. right. apply Hl. by right. }
    exists mid. split_and!.
    + erewrite bind_run; [exact Hrun|]. exec. reflexivity.
    + intros k Hk. apply Hsome. simpl. apply lookup_insert_is_Some'. by right.
    + intros k Hk. rewrite Hout by (intros ?; apply Hk; by right).
      simpl. rewrite lookup_insert_ne; [done|]. intros ->. apply Hk. by left.
Qed.

(** The loop stops at the first attribute of [l] the instance lacks. *)
Lemma reload_loop_Err d l s a :
  a ∈ l → self s !! a = None →
  ∃ a' s',
    a' ∈ l ∧ self s !! a' = None ∧
    for_ l (λ attribute,
      current ← getattr attribute;
      v ← lift (dict_get (VDict d) attribute current);
      setattr attribute v) s = (Err (AttributeError a'), s') ∧
    fs s' = fs s ∧ logger_level s' = logger_level s ∧ trace s' = trace s ∧
    (∀ k, k ∉ l → self s' !! k = self s !! k).
Proof.
  revert s. induction l as [|x l IH]; intros s Ha Hnone; [by inversion Ha|]. simpl.
  destruct (self s !! x) as [cur|] eqn:Hx.
  - assert (a ≠ x) as Hax by congruence.
    apply elem_of_cons in Ha as [->|Ha]; [done|].
    destruct (IH (set_self <[x := override d x cur]> s) Ha)
      as (a' & s' & Ha' & Hnone' & Hrun & Hfs & Hlvl & Htr & Hout).
    { simpl. by rewrite lookup_insert_ne. }
    simpl in *. exists a', s'.
    assert (a' ≠ x) as Hne.
    { intros ->. by rewrite lookup_insert_eq in Hnone'. }
    rewrite lookup_insert_ne in Hnone' by done.
    split_and!; try done.
    + by right.
    + erewrite bind_run; [exact Hrun|]. exec. reflexivity.
    + intros k Hk. rewrite Hout by (intros ?; apply Hk; by right).
      rewrite lookup_insert_ne; [done|]. intros ->. apply Hk. by left.
  - exists x, s. split_and!; try done; [by left|].
    unfold mbind, M_bind, getattr. by rewrite Hx.
Qed.

(** The body up to the copy: configuration applied, model loaded. *)
Lemma body_until_copy cp hp pp s content d custom weights model dir dst :
  fs s !! cp = Some content → json_load content = Ok (VDict d) →
  (∀ a, a ∈ reload_attributes → is_Some (self s !! a)) →
  self s !! "custom_objects" = Some custom →
  fs s !! hp = Some weights → load_model_keras weights custom = Ok model →
  self s !! "model_dir" = Some dir → os_path_join dir "best.hdf5" = Ok dst →
  ∃ mid,
    mid !! "nb_fit" = Some (override d "nb_fit" (VInt 1)) ∧
    mid !! "trained" = Some (override d "trained" (VBool true)) ∧
    (∀ k, k ∈ reload_attributes →
       ∃ cur, self s !! k = Some cur ∧ mid !! k = Some (override d k cur)) ∧
    (∀ k, k ∉ "nb_fit" :: "trained" :: reload_attributes → mid !! k = self s !! k) ∧
    body cp hp pp s =
      (copyfile hp dst;;
       f ← open_ pp "rb";
       emit EvPickleLoad;;
       pipeline ← lift (pickle_load f);
       setattr "preprocess_pipeline" pipeline)
      (State (<["model" := model]> mid) (fs s) (logger_level s)
         (trace s ++ [EvOpen cp "r"; EvJsonLoad; EvLoadModel hp])).
Proof.
  intros Hcontent Hjson Hattrs Hcustom Hweights Hmodel Hdir Hdst.
  set (s2 := State (<["trained" := override d "trained" (VBool true)]>
                      (<["nb_fit" := override d "nb_fit" (VInt 1)]> (self s)))
               (fs s) (logger_level s) (trace s ++ [EvOpen cp "r"; EvJsonLoad])).
  destruct (reload_loop_run d reload_attributes s2) as (mid & Hloop & _ & Hout).
  { intros a Ha. simpl. rewrite !lookup_insert_is_Some'. right. right. by apply Hattrs. }
  assert (∀ k, k ∉ "nb_fit" :: "trained" :: reload_attributes → mid !! k = self s !! k)
    as Hframe.
  { intros k Hk. rewrite Hout by (intros ?; apply Hk; by do 2 right). simpl.
    rewrite !lookup_insert_ne; [done | |]; intros <-; apply Hk; repeat constructor. }
  assert (∀ k, k ∈ ["custom_objects"; "model_dir"] → mid !! k = self s !! k) as Hkeep.
  { intros k Hk. apply Hframe. intros [->|[->|Hk']%elem_of_cons]%elem_of_cons.
    - apply list_elem_of_In in Hk. simpl in Hk. intuition discriminate.
    - apply list_elem_of_In in Hk. simpl in Hk. intuition discriminate.
    - revert Hk'. apply not_reload_attribute.
      apply list_elem_of_In. apply list_elem_of_In in Hk. simpl in *. intuition. }
  exists mid. split_and!; try done.
  - rewrite Hout by (apply not_reload_attribute; repeat constructor). simpl.
    rewrite lookup_insert_ne by done. by rewrite lookup_insert_eq.
  - rewrite Hout by (apply not_reload_attribute; repeat constructor). simpl.
    by rewrite lookup_insert_eq.
  - intros k Hk.
    destruct (reload_loop_Ok d _ _ _ _ reload_attributes_NoDup Hloop)
      as (_ & _ & _ & Hin & _).
    destruct (Hin k Hk) as (cur & Hcur & Hmid). exists cur. split; [|done].
    simpl in Hcur. rewrite !lookup_insert_ne in Hcur; [done | |]; intros <-;
      revert Hk; apply not_reload_attribute; repeat constructor.
  - unfold reload_from_standalone_body, open_. exec. rewrite Hjson. exec. simpl.
    rewrite <- app_assoc. simpl. fold (override d "nb_fit" (VInt 1)).
    fold (override d "trained" (VBool true)).
    erewrite bind_run by exact Hloop.
    rewrite <- (Hkeep "custom_objects") in Hcustom by repeat constructor.
    rewrite <- (Hkeep "model_dir") in Hdir by repeat constructor.
    exec. rewrite Hmodel. exec.
    erewrite bind_run
      by (apply getattr_at; simpl; rewrite lookup_insert_ne by done; exact Hdir).
    rewrite Hdst. exec. simpl. by rewrite <- app_assoc.
Qed.

(** The copy of a reload that returned was not refused. *)
Lemma body_Ok_copy cp hp pp s u s' dir dst :
  body cp hp pp s = (Ok u, s') →
  self s !! "model_dir" = Some dir → os_path_join dir "best.hdf5" = Ok dst →
  copyfile_raises (fs s) hp dst = None.
Proof.
  intros H Hdir Hdst. pose proof H as Hbody.
  apply body_Ok in Hbody
    as (content & d & mid & weights & custom & model & dir' & dst' & _ & _
        & Hcontent & Hjson & _ & _ & Hin & _ & Hw & Hcustom & Hmodel & Hdir' & Hdst' & _).
  assert (dir' = dir) as -> by congruence. assert (dst' = dst) as -> by congruence.
  destruct (body_until_copy cp hp pp s content d custom weights model dir dst)
    as (mid' & _ & _ & _ & _ & Hrun); try done.
  { intros a Ha. destruct (Hin a Ha) as (cur & Hcur & _). by exists cur. }
  rewrite Hrun in H. apply bind_Ok in H as ([] & s1 & Hcopy & _).
  by apply shutil_copyfile_Ok in Hcopy as (_ & _ & _ & Hok & _).
Qed.

Lemma reload_attributes_kept : reload_attributes = kept_attributes.
Proof. reflexivity. Qed.

(** X4. [reload_from_standalone] returns only if: the three paths are
    supplied and name files; the configuration file loads as a mapping; the
    instance has the eleven attributes [model_type], ..., [keras_params],
    [custom_objects] and [model_dir]; the weights load; the destination
    [os.path.join(model_dir, 'best.hdf5')] is not [hdf5_path] itself and the
    copy is not refused; and the file at [preprocess_pipeline_path], as it is
    after the copy, unpickles. *)
Theorem reload_returns_only_if kwargs s s' :
  reload kwargs s = (Ok tt, s') →
  ∃ cp hp pp content d custom weights model dir dst pcontent pipeline,
    supplied kwargs cp hp pp ∧ is_Some (fs s !! pp) ∧
    fs s !! cp = Some content ∧ json_load content = Ok (VDict d) ∧
    (∀ a, a ∈ kept_attributes → is_Some (self s !! a)) ∧
    self s !! "custom_objects" = Some custom ∧
    fs s !! hp = Some weights ∧ load_model_keras weights custom = Ok model ∧
    self s !! "model_dir" = Some dir ∧ os_path_join dir "best.hdf5" = Ok dst ∧
    hp ≠ dst ∧ copyfile_raises (fs s) hp dst = None ∧
    <[dst := weights]> (fs s) !! pp = Some pcontent ∧ pickle_load pcontent = Ok pipeline.
Proof.
  intros Hrun.
  apply reload_Ok in Hrun as (cp & hp & pp & Hsup & _ & _ & Hpp & Hbody).
  pose proof Hbody as Hbody'.
  apply body_Ok in Hbody
    as (content & d & mid & weights & custom & model & dir & dst & pcontent & pipeline
        & ? & ? & _ & _ & Hin & _ & ? & ? & ? & Hdir & Hdst & ? & ? & ? & _).
  exists cp, hp, pp, content, d, custom, weights, model, dir, dst, pcontent, pipeline.
  split_and!; try done.
  - intros a Ha. rewrite <- reload_attributes_kept in Ha.
    destruct (Hin a Ha) as (cur & Hcur & _). by exists cur.
  - exact (body_Ok_copy _ _ _ _ _ _ _ _ Hbody' Hdir Hdst).
Qed.

(** X5. When the instance lacks one of the eleven attributes of the loop,
    a reload that got as far as the loaded configuration raises
    [AttributeError] for the first one it lacks, in the order [model_type],
    [x_col], ..., [keras_params], whether or not the file has that key. By
    then [nb_fit], [trained] and the attributes before that one are assigned
    from the file; that attribute and the ones after it, [self.model] and
    the files are untouched. *)
Theorem reload_missing_attribute kwargs s cp hp pp content d before a after :
  supplied kwargs cp hp pp →
  is_Some (fs s !! hp) → is_Some (fs s !! pp) →
  fs s !! cp = Some content → json_load content = Ok (VDict d) →
  kept_attributes = before ++ a :: after →
  (∀ b, b ∈ before → is_Some (self s !! b)) →
  self s !! a = None →
  ∃ s',
    reload kwargs s = (Err (AttributeError a), s') ∧
    self s' !! "nb_fit" = Some (override d "nb_fit" (VInt 1)) ∧
    self s' !! "trained" = Some (override d "trained" (VBool true)) ∧
    (∀ b, b ∈ before →
       ∃ cur, self s !! b = Some cur ∧ self s' !! b = Some (override d b cur)) ∧
    (∀ b, b ∈ a :: after → self s' !! b = self s !! b) ∧
    self s' !! "model" = self s !! "model" ∧
    fs s' = fs s.
Proof.
  intros Hsup Hhp Hpp Hcontent Hjson Hsplit Hbefore Hnone.
  rewrite (reload_after_checks _ _ cp hp pp) by eauto.
  pose proof reload_attributes_NoDup as Hnodup.
  rewrite reload_attributes_kept, Hsplit in Hnodup.
  apply NoDup_app in Hnodup as (Hnd_before & Hdisjoint & Hnd_after).
  assert (∀ k, k ∈ kept_attributes → k ≠ "nb_fit" ∧ k ≠ "trained" ∧ k ≠ "model") as Hnames.
  { intros k Hk%list_elem_of_In. simpl in Hk. split_and!; intros ->; intuition discriminate. }
  assert (∀ k, k ∈ before ++ a :: after → k ≠ "nb_fit" ∧ k ≠ "trained" ∧ k ≠ "model")
    as Hnames' by (rewrite <- Hsplit; exact Hnames).
  set (s2 := State (<["trained" := override d "trained" (VBool true)]>
                      (<["nb_fit" := override d "nb_fit" (VInt 1)]> (self s)))
               (fs s) (logger_level s)
               (trace (checked cp hp pp s) ++ [EvOpen cp "r"; EvJsonLoad])).
  assert (∀ k, k ∈ before ++ a :: after → self s2 !! k = self s !! k) as Hsame.
  { intros k Hk. destruct (Hnames' k Hk) as (? & ? & _). simpl.
    by rewrite !lookup_insert_ne. }
  destruct (reload_loop_run d before s2) as (mid & Hloop & _ & Hout).
  { intros b Hb. rewrite Hsame by (apply elem_of_app; by left). by apply Hbefore. }
  destruct (reload_loop_Ok d _ _ _ _ Hnd_before Hloop) as (_ & _ & _ & Hin & _).
  simpl in Hin.
  assert (∀ b, b ∈ a :: after → mid !! b = self s !! b) as Hafter.
  { intros b Hb. rewrite Hout by (intros ?; by apply (Hdisjoint b)).
    apply Hsame. apply elem_of_app. by right. }
  assert (for_ reload_attributes (λ attribute,
            current ← getattr attribute;
            v ← lift (dict_get (VDict d) attribute current);
            setattr attribute v) s2
          = (Err (AttributeError a), State mid (fs s) (logger_level s) (trace s2)))
    as Hstop.
  { rewrite reload_attributes_kept, Hsplit, for_app.
    erewrite bind_run by exact Hloop. cbn [for_].
    apply bind_Err. left. apply bind_Err. left. unfold getattr. cbn [self].
    rewrite (Hafter a) by (by left). by rewrite Hnone. }
  exists (State mid (fs s) (logger_level s) (trace s2)). split_and!; simpl.
  - unfold reload_from_standalone_body, open_. exec. rewrite Hjson. exec. simpl.
    rewrite <- app_assoc. simpl. fold (override d "nb_fit" (VInt 1)).
    fold (override d "trained" (VBool true)).
    apply bind_Err. left. exact Hstop.
  - rewrite Hout; [simpl; rewrite lookup_insert_ne by done; by rewrite lookup_insert_eq|].
    intros Hk. destruct (Hnames' "nb_fit") as (? & _); [apply elem_of_app; by left | done].
  - rewrite Hout; [simpl; by rewrite lookup_insert_eq|].
    intros Hk. destruct (Hnames' "trained") as (_ & ? & _); [apply elem_of_app; by left | done].
  - intros b Hb. destruct (Hin b Hb) as (cur & Hcur & Hmid). exists cur. split; [|done].
    destruct (Hnames' b) as (? & ? & _); [apply elem_of_app; by left|].
    by rewrite !lookup_insert_ne in Hcur.
  - exact Hafter.
  - rewrite Hout; [simpl; by rewrite !lookup_insert_ne|].
    intros Hk. destruct (Hnames' "model") as (_ & _ & ?); [apply elem_of_app; by left | done].
  - done.
Qed.

(** X6. When [json.load] raises on the configuration file, or returns
    something that is not a mapping, [reload_from_standalone] raises (the
    same error, respectively [AttributeError]) and has assigned no attribute
    and written no file. *)
Theorem reload_unreadable_configuration kwargs s cp hp pp content :
  supplied kwargs cp hp pp →
  is_Some (fs s !! hp) → is_Some (fs s !! pp) →
  fs s !! cp = Some content →
  (∀ e, json_load content = Err e →
     ∃ s', reload kwargs s = (Err e, s') ∧ self s' = self s ∧ fs s' = fs s) ∧
  (∀ v, json_load content = Ok v → (∀ d, v ≠ VDict d) →
     ∃ msg s', reload kwargs s = (Err (AttributeError msg), s') ∧
               self s' = self s ∧ fs s' = fs s).
Proof.
  intros Hsup Hhp Hpp Hcontent.
  rewrite (reload_after_checks _ _ cp hp pp) by eauto.
  unfold reload_from_standalone_body, open_. split.
  - intros e Hjson. exec. rewrite Hjson. by eexists.
  - intros v Hjson Hv. exec. rewrite Hjson. exec.
    destruct v as [| | | | | |d| |]; try (by do 2 eexists). by destruct (Hv d).
Qed.

(** X7. When [hdf5_path] already is [os.path.join(model_dir, 'best.hdf5')],
    a reload that got as far as the copy raises [SameFileError]: [nb_fit],
    [trained] and the eleven attributes [model_type], ..., [keras_params]
    are assigned from the file and [self.model] is loaded, but
    [self.preprocess_pipeline] is not, and no file has changed. *)
Theorem reload_onto_own_weights kwargs s cp hp pp content d custom weights model dir :
  supplied kwargs cp hp pp → is_Some (fs s !! pp) →
  fs s !! cp = Some content → json_load content = Ok (VDict d) →
  (∀ a, a ∈ kept_attributes → is_Some (self s !! a)) →
  self s !! "custom_objects" = Some custom →
  fs s !! hp = Some weights → load_model_keras weights custom = Ok model →
  self s !! "model_dir" = Some dir → os_path_join dir "best.hdf5" = Ok hp →
  ∃ s',
    reload kwargs s = (Err (SameFileError hp), s') ∧
    self s' !! "model" = Some model ∧
    self s' !! "nb_fit" = Some (override d "nb_fit" (VInt 1)) ∧
    self s' !! "trained" = Some (override d "trained" (VBool true)) ∧
    (∀ a, a ∈ kept_attributes →
       ∃ cur, self s !! a = Some cur ∧ self s' !! a = Some (override d a cur)) ∧
    self s' !! "preprocess_pipeline" = self s !! "preprocess_pipeline" ∧
    fs s' = fs s.
Proof.
  intros Hsup Hpp Hcontent Hjson Hattrs Hcustom Hweights Hmodel Hdir Hdst.
  rewrite (reload_after_checks _ _ cp hp pp) by eauto.
  destruct (body_until_copy cp hp pp (checked cp hp pp s) content d custom weights
              model dir hp) as (mid & Hnb & Htr & Hin & Hframe & ->); try done.
  eexists. split.
  { apply bind_Err. left. by apply (shutil_copyfile_same hp _ weights). }
  simpl. split_and!; try done.
  - by rewrite lookup_insert_eq.
  - by rewrite lookup_insert_ne.
  - by rewrite lookup_insert_ne.
  - intros a Ha. rewrite <- reload_attributes_kept in Ha.
    destruct (Hin a Ha) as (cur & Hcur & Hmid). exists cur. split; [done|].
    rewrite lookup_insert_ne; [done|]. intros <-. revert Ha.
    apply not_reload_attribute. repeat constructor.
  - rewrite lookup_insert_ne by done. apply Hframe.
    intros [[=]|[[=]|H]%elem_of_cons]%elem_of_cons. revert H.
    apply not_reload_attribute. repeat constructor.
Qed.

End Reload.

(** *** [_get_model] *)

(** A tensor is its input and its layers. *)
Lemma tensor_eq t1 t2 :
  input_of t1 = input_of t2 → layers_of t1 = layers_of t2 → t1 = t2.
Proof.
  revert t2. induction t1 as [sh1|l1 x1 IH]; intros [sh2|l2 x2]; simpl.
  - done.
  - intros _ H. by apply app_cons_not_nil in H.
  - intros _ H. symmetry in H. by apply app_cons_not_nil in H.
  - intros Hi [Hl ->]%app_inj_tail. f_equal. by apply IH.
Qed.

Section GetModel.

Variable _save_model_png : Model → M state unit.
Variable Adam_raises : pyval → pyval → option exn.

#[local] Abbreviation get_model := (_get_model _save_model_png Adam_raises).

Lemma get_model_Ok_Adam s m s' :
  get_model s = (Ok m, s') →
  ∃ x_col n kp out,
    self s !! "x_col" = Some x_col ∧ len x_col = Ok n ∧
    self s !! "keras_params" = Some (VDict kp) ∧
    inputs m = Input [n] ∧ outputs m = [out] ∧
    input_of out = Input [n] ∧ layers_of out = claimed_layers ∧
    compiled m = Some (CompileArgs (Adam (learning_rate_of kp) (decay_of kp))
                         "mean_squared_error"
                         [MetricName "mean_squared_error";
                          MetricName "mean_absolute_error";
                          MetricFunction "utils_deep_keras.root_mean_squared_error"]) ∧
    Adam_raises (learning_rate_of kp) (decay_of kp) = None.
Proof.
  unfold _get_model, logger_info. intros H.
  apply bind_Ok in H as (x_col & ? & [Hx ->]%getattr_Ok & H).
  apply bind_Ok in H as (n & ? & [Hn ->]%lift_Ok & H).
  apply bind_Ok in H as (kp & ? & [Hkp ->]%getattr_Ok & H).
  apply bind_Ok in H as (has_lr & ? & [Hhas_lr ->]%lift_Ok & H).
  destruct kp as [| | | | | |kp| |]; try discriminate Hhas_lr.
  injection Hhas_lr as <-.
  apply bind_Ok in H as (lr & s1 & Hlr & H).
  assert (lr = learning_rate_of kp ∧ s1 = s) as [-> ->].
  { unfold learning_rate_of. case_bool_decide as Hsome.
    - apply bind_Ok in Hlr as (kp' & ? & [Hkp' ->]%getattr_Ok & [Hlr ->]%lift_Ok).
      rewrite Hkp in Hkp'. injection Hkp' as <-. simpl in Hlr.
      destruct (kp !! "learning_rate"); [by injection Hlr as -> | discriminate].
    - apply ret_Ok in Hlr as [-> ->]. apply eq_None_not_Some in Hsome. by rewrite Hsome. }
  apply bind_Ok in H as (kp' & ? & [Hkp' ->]%getattr_Ok & H).
  rewrite Hkp in Hkp'. injection Hkp' as <-.
  apply bind_Ok in H as (has_decay & ? & [[= <-] ->]%lift_Ok & H).
  apply bind_Ok in H as (decay & s1 & Hdecay & H).
  assert (decay = decay_of kp ∧ s1 = s) as [-> ->].
  { unfold decay_of. case_bool_decide as Hsome.
    - apply bind_Ok in Hdecay as (kp' & ? & [Hkp' ->]%getattr_Ok & [Hd ->]%lift_Ok).
      rewrite Hkp in Hkp'. injection Hkp' as <-. simpl in Hd.
      destruct (kp !! "decay"); [by injection Hd as -> | discriminate].
    - apply ret_Ok in Hdecay as [-> ->]. apply eq_None_not_Some in Hsome. by rewrite Hsome. }
  apply bind_Ok in H as ([] & ? & ->%emit_Ok & H).
  apply bind_Ok in H as ([] & ? & ->%emit_Ok & H).
  apply bind_Ok in H as (optimizer & ? & [Hadam ->]%lift_Ok & H).
  unfold new_Adam in Hadam.
  destruct (Adam_raises (learning_rate_of kp) (decay_of kp)) eqn:Haccepts;
    [discriminate|]. injection Hadam as <-.
  apply bind_Ok in H as (level & ? & [-> ->]%gets_Ok & H).
  apply bind_Ok in H as ([] & s2 & _ & H).
  apply bind_Ok in H as (level_save & ? & [_ ->]%getattr_Ok & H).
  apply bind_Ok in H as ([] & s3 & _ & H).
  apply ret_Ok in H as [-> ->].
  eexists x_col, n, kp, _. by split_and!.
Qed.

Lemma get_model_Ok s m s' :
  get_model s = (Ok m, s') →
  ∃ x_col n kp out,
    self s !! "x_col" = Some x_col ∧ len x_col = Ok n ∧
    self s !! "keras_params" = Some (VDict kp) ∧
    inputs m = Input [n] ∧ outputs m = [out] ∧
    input_of out = Input [n] ∧ layers_of out = claimed_layers ∧
    compiled m = Some (CompileArgs (Adam (learning_rate_of kp) (decay_of kp))
                         "mean_squared_error"
                         [MetricName "mean_squared_error";
                          MetricName "mean_absolute_error";
                          MetricFunction "utils_deep_keras.root_mean_squared_error"]).
Proof.
  intros H. apply get_model_Ok_Adam in H as (x_col & n & kp & out & H).
  exists x_col, n, kp, out. by destruct_and!.
Qed.

Lemma getattr_run name s v : self s !! name = Some v → getattr name s = (Ok v, s).
Proof. intros H. by apply getattr_Ok. Qed.

(** Running a method body forwards, one call at a time. *)
Ltac run :=
  repeat first
    [ erewrite bind_run by (apply getattr_run; eassumption)
    | erewrite bind_run by reflexivity ].

Lemma param_or_default_run (kp : gmap string pyval) k default s :
  self s !! "keras_params" = Some (VDict kp) →
  (if bool_decide (is_Some (kp !! k))
   then keras_params ← getattr "keras_params"; lift (getitem keras_params k)
   else mret default) s =
  (Ok (match kp !! k with Some v => v | None => default end), s).
Proof.
  intros Hkp. destruct (kp !! k) as [v|] eqn:Hk; simpl.
  - run. simpl. by rewrite Hk.
  - done.
Qed.

Lemma get_model_returns s x_col n kp level_save :
  self s !! "x_col" = Some x_col → len x_col = Ok n →
  self s !! "keras_params" = Some (VDict kp) →
  self s !! "level_save" = Some level_save →
  Adam_raises (learning_rate_of kp) (decay_of kp) = None →
  (in_strs level_save ["MEDIUM"; "HIGH"] = true →
   ∀ m s0, ∃ s1, _save_model_png m s0 = (Ok tt, s1)) →
  ∃ m s', get_model s = (Ok m, s').
Proof.
  intros Hx Hn Hkp Hls Haccepts Hsave. unfold _get_model, logger_info.
  run. rewrite Hn. run. simpl.
  erewrite bind_run by (apply param_or_default_run; eassumption).
  run. simpl.
  erewrite bind_run by (apply param_or_default_run; eassumption).
  fold (learning_rate_of kp). fold (decay_of kp).
  run. unfold new_Adam. rewrite Haccepts. run. unfold summary.
  case_bool_decide; run; simpl.
  all: destruct (in_strs level_save ["MEDIUM"; "HIGH"]); [|by eauto].
  all: edestruct (Hsave eq_refl) as [s1 Hs1]; erewrite bind_run by exact Hs1; by eauto.
Qed.

(** C4. Whenever [_get_model] returns a model, the model has one input of
    dimension [len(x_col)], one output reached through two hidden blocks
    [Dense(64, he_uniform)], [BatchNormalization(momentum=0.9)],
    [ELU(alpha=1.0)], [Dropout(0.2)] and a final [Dense(1, glorot_uniform)],
    and is compiled with loss ['mean_squared_error'] and [Adam] with the
    learning rate and decay of [keras_params], or [0.001] and [0.0]; and it
    does return one on every instance whose [x_col] has a length, whose
    [keras_params] is a dictionary and whose learning rate and decay [Adam]
    accepts (provided the drawing of the model, when [level_save] asks for
    it, returns). *)
Theorem get_model_topology s :
  (∀ m s', get_model s = (Ok m, s') →
     ∃ x_col n kp out,
       self s !! "x_col" = Some x_col ∧ len x_col = Ok n ∧
       self s !! "keras_params" = Some (VDict kp) ∧
       inputs m = Input [n] ∧ outputs m = [out] ∧
       input_of out = Input [n] ∧ layers_of out = claimed_layers ∧
       compiled m = Some (CompileArgs (Adam (learning_rate_of kp) (decay_of kp))
                            "mean_squared_error"
                            [MetricName "mean_squared_error";
                             MetricName "mean_absolute_error";
                             MetricFunction "utils_deep_keras.root_mean_squared_error"])) ∧
  (∀ x_col n kp level_save,
     self s !! "x_col" = Some x_col → len x_col = Ok n →
     self s !! "keras_params" = Some (VDict kp) →
     self s !! "level_save" = Some level_save →
     Adam_raises (learning_rate_of kp) (decay_of kp) = None →
     (in_strs level_save ["MEDIUM"; "HIGH"] = true →
      ∀ m s0, ∃ s1, _save_model_png m s0 = (Ok tt, s1)) →
     ∃ m s', get_model s = (Ok m, s')).
Proof.
  split.
  - intros m s'. apply get_model_Ok.
  - intros x_col n kp level_save. apply get_model_returns.
Qed.

(** C5. Two instances with the same [x_col], [keras_params], [level_save]
    and logger level get the same model from [_get_model]: same layers with
    the same parameters, same loss, metrics and optimizer settings. *)
Theorem get_model_deterministic s1 s2 m1 m2 s1' s2' :
  self s1 !! "x_col" = self s2 !! "x_col" →
  self s1 !! "keras_params" = self s2 !! "keras_params" →
  self s1 !! "level_save" = self s2 !! "level_save" →
  logger_level s1 = logger_level s2 →
  get_model s1 = (Ok m1, s1') →
  get_model s2 = (Ok m2, s2') →
  m1 = m2.
Proof.
  intros Hx Hkp _ _ H1 H2.
  apply get_model_Ok in H1 as (x1 & n1 & kp1 & out1 & Hx1 & Hn1 & Hkp1 & Hi1 & Ho1 & Hin1 & Hl1 & Hc1).
  apply get_model_Ok in H2 as (x2 & n2 & kp2 & out2 & Hx2 & Hn2 & Hkp2 & Hi2 & Ho2 & Hin2 & Hl2 & Hc2).
  rewrite Hx1, Hx2 in Hx. injection Hx as ->.
  rewrite Hkp1, Hkp2 in Hkp. injection Hkp as ->.
  rewrite Hn1 in Hn2. injection Hn2 as ->.
  assert (out1 = out2) as -> by (apply tensor_eq; congruence).
  destruct m1, m2. simpl in *. congruence.
Qed.

(** On an instance whose [x_col] has a length and whose [keras_params] is a
    dictionary, [_get_model] gets as far as [Adam]. *)
Lemma get_model_until_Adam s x_col n kp :
  self s !! "x_col" = Some x_col → len x_col = Ok n →
  self s !! "keras_params" = Some (VDict kp) →
  ∀ e, Adam_raises (learning_rate_of kp) (decay_of kp) = Some e →
       get_model s = (Err e, logged_rates s kp).
Proof.
  intros Hx Hn Hkp e Hrefuses. unfold _get_model, logger_info, logged_rates.
  run. rewrite Hn. run. simpl.
  erewrite bind_run by (apply param_or_default_run; eassumption).
  run. simpl.
  erewrite bind_run by (apply param_or_default_run; eassumption).
  fold (learning_rate_of kp). fold (decay_of kp).
  run. unfold new_Adam. rewrite Hrefuses. simpl. by rewrite <- app_assoc.
Qed.

(** When [Adam] accepts the learning rate and the decay, it gets as far as
    the drawing. *)
Lemma get_model_run s x_col n kp level_save :
  self s !! "x_col" = Some x_col → len x_col = Ok n →
  self s !! "keras_params" = Some (VDict kp) →
  self s !! "level_save" = Some level_save →
  Adam_raises (learning_rate_of kp) (decay_of kp) = None →
  ∃ m out,
    outputs m = [out] ∧ input_of out = Input [n] ∧ layers_of out = claimed_layers ∧
    compiled m = Some (CompileArgs (Adam (learning_rate_of kp) (decay_of kp))
                         "mean_squared_error"
                         [MetricName "mean_squared_error";
                          MetricName "mean_absolute_error";
                          MetricFunction "utils_deep_keras.root_mean_squared_error"]) ∧
    get_model s =
      if in_strs level_save ["MEDIUM"; "HIGH"]
      then (_save_model_png m;; mret m) (logged s kp m)
      else (Ok m, logged s kp m).
Proof.
  intros Hx Hn Hkp Hls Haccepts. unfold _get_model, logger_info, logged.
  run. rewrite Hn. run. simpl.
  erewrite bind_run by (apply param_or_default_run; eassumption).
  run. simpl.
  erewrite bind_run by (apply param_or_default_run; eassumption).
  fold (learning_rate_of kp). fold (decay_of kp).
  run. unfold new_Adam. rewrite Haccepts. run. unfold summary. simpl.
  case_bool_decide; run; simpl; rewrite <- !app_assoc; simpl.
  all: do 2 eexists; split_and!.
  all: try (by destruct (in_strs level_save ["MEDIUM"; "HIGH"])).
  all: reflexivity.
Qed.

(** X8. When [level_save] is neither ['MEDIUM'] nor ['HIGH'], a [_get_model]
    that returns has assigned no attribute and written no file; it has logged
    the learning rate and the decay, and printed the summary of the model it
    returns exactly when the logger's level is below [logging.ERROR]. *)
Theorem get_model_without_drawing s m s' level_save :
  self s !! "level_save" = Some level_save →
  in_strs level_save ["MEDIUM"; "HIGH"] = false →
  get_model s = (Ok m, s') →
  ∃ kp, self s !! "keras_params" = Some (VDict kp) ∧ s' = logged s kp m.
Proof.
  intros Hls Hlow Hrun.
  destruct (get_model_Ok_Adam _ _ _ Hrun)
    as (x_col & n & kp & _ & Hx & Hn & Hkp & _ & _ & _ & _ & _ & Haccepts).
  destruct (get_model_run s x_col n kp level_save) as (m0 & _ & _ & _ & _ & _ & Hrun0);
    try done.
  rewrite Hlow, Hrun in Hrun0. injection Hrun0 as -> ->. by exists kp.
Qed.

(** X9. On an instance whose [x_col] has a length, whose [keras_params] is
    a dictionary and whose [level_save] is ['MEDIUM'] or ['HIGH']: when
    [Adam] raises on the learning rate and decay, [_get_model] raises that
    error once the two lines are logged, before any compiling or drawing;
    otherwise it hands the compiled model to [_save_model_png] once the
    logging is done, and returns that model, in the state the drawing
    leaves, when the drawing returns, and raises the drawing's error when it
    does not. *)
Theorem get_model_with_drawing s x_col n kp level_save :
  self s !! "x_col" = Some x_col → len x_col = Ok n →
  self s !! "keras_params" = Some (VDict kp) →
  self s !! "level_save" = Some level_save →
  in_strs level_save ["MEDIUM"; "HIGH"] = true →
  match Adam_raises (learning_rate_of kp) (decay_of kp) with
  | Some e => get_model s = (Err e, logged_rates s kp)
  | None =>
      ∃ m out,
        outputs m = [out] ∧ input_of out = Input [n] ∧ layers_of out = claimed_layers ∧
        compiled m = Some (CompileArgs (Adam (learning_rate_of kp) (decay_of kp))
                             "mean_squared_error"
                             [MetricName "mean_squared_error";
                              MetricName "mean_absolute_error";
                              MetricFunction "utils_deep_keras.root_mean_squared_error"]) ∧
        get_model s =
          match _save_model_png m (logged s kp m) with
          | (Ok _, s') => (Ok m, s')
          | (Err e, s') => (Err e, s')
          end
  end.
Proof.
  intros Hx Hn Hkp Hls Hhigh.
  destruct (Adam_raises (learning_rate_of kp) (decay_of kp)) as [e|] eqn:Hadam.
  - by apply (get_model_until_Adam s x_col n kp).
  - destruct (get_model_run s x_col n kp level_save)
      as (m & out & ? & ? & ? & ? & Hrun); try done.
    exists m, out. split_and!; try done. rewrite Hrun, Hhigh.
    unfold mbind, M_bind. by destruct (_save_model_png m (logged s kp m)) as [[[]|e] s'].
Qed.

(** X10. [_get_model] raises [TypeError] when [x_col] is [None], a boolean
    or a number, and [AttributeError] when [x_col] has a length and
    [keras_params] is [None], a boolean, a number, a string or a list; in
    both cases nothing has been logged or changed. *)
Theorem get_model_rejects s :
  (∀ v, self s !! "x_col" = Some v → unsized v = true →
     ∃ msg, get_model s = (Err (TypeError msg), s)) ∧
  (∀ v n k, self s !! "x_col" = Some v → len v = Ok n →
     self s !! "keras_params" = Some k → keyless k = true →
     ∃ msg, get_model s = (Err (AttributeError msg), s)).
Proof.
  split.
  - intros v Hx Hv. unfold _get_model. run.
    destruct v; try discriminate Hv; by eexists.
  - intros v n k Hx Hn Hk Hkeyless. unfold _get_model. run. rewrite Hn. run.
    destruct k; try discriminate Hkeyless; by eexists.
Qed.

(** X11. The model [_get_model] returns depends on the instance through
    the length of [x_col] and the entries ['learning_rate'] and ['decay'] of
    [keras_params] only: other column names, other entries of
    [keras_params] and other attributes change nothing. *)
Theorem get_model_depends_on_length_and_rates s1 s2 x1 x2 kp1 kp2 m1 m2 s1' s2' :
  self s1 !! "x_col" = Some x1 → self s2 !! "x_col" = Some x2 → len x1 = len x2 →
  self s1 !! "keras_params" = Some (VDict kp1) →
  self s2 !! "keras_params" = Some (VDict kp2) →
  kp1 !! "learning_rate" = kp2 !! "learning_rate" →
  kp1 !! "decay" = kp2 !! "decay" →
  get_model s1 = (Ok m1, s1') →
  get_model s2 = (Ok m2, s2') →
  m1 = m2.
Proof.
  intros Hx1 Hx2 Hlen Hkp1 Hkp2 Hlr Hdecay H1 H2.
  apply get_model_Ok in H1
    as (x1' & n1 & kp1' & out1 & Hx1' & Hn1 & Hkp1' & Hi1 & Ho1 & Hin1 & Hl1 & Hc1).
  apply get_model_Ok in H2
    as (x2' & n2 & kp2' & out2 & Hx2' & Hn2 & Hkp2' & Hi2 & Ho2 & Hin2 & Hl2 & Hc2).
  assert (x1' = x1) as -> by congruence. assert (x2' = x2) as -> by congruence.
  assert (kp1' = kp1) as -> by congruence. assert (kp2' = kp2) as -> by congruence.
  assert (n1 = n2) as -> by congruence.
  assert (learning_rate_of kp1 = learning_rate_of kp2) as Hlr'
    by (unfold learning_rate_of; by rewrite Hlr).
  assert (decay_of kp1 = decay_of kp2) as Hdecay'
    by (unfold decay_of; by rewrite Hdecay).
  assert (out1 = out2) as -> by (apply tensor_eq; congruence).
  destruct m1, m2. simpl in *. congruence.
Qed.

End GetModel.

(** *** [reload_from_standalone], then [_get_model] *)

Section ReloadThenGetModel.

Variable json_load : string → result pyval.
Variable load_model_keras : string → pyval → result pyval.
Variable pickle_load : string → result pyval.
Variable copyfile_raises : gmap string string → string → string → option exn.
Variable _save_model_png : Model → M state unit.
Variable Adam_raises : pyval → pyval → option exn.

#[local] Abbreviation reload :=
  (reload_from_standalone json_load load_model_keras pickle_load copyfile_raises).
#[local] Abbreviation get_model := (_get_model _save_model_png Adam_raises).



End ReloadThenGetModel.

End ModelDenseRegressorFacts.

(** ** model_explainer.py *)

Module ModelExplainerFacts.
Import Py PySpec PyFacts ModelExplainer ModelExplainerSpec.

(** C2. [LimeExplainer.__init__] raises [TypeError] exactly when the model
    has no callable [predict_proba] attribute or its [list_classes] attribute
    is absent or [None]; otherwise it returns an explainer whose
    [class_names] is the model's [list_classes]. *)
Theorem init_TypeError_iff model conf :
  ((∃ msg, __init__ model conf = Err (TypeError msg)) ↔
   lacks_callable model "predict_proba" ∨ absent_or_none model "list_classes") ∧
  (¬ (lacks_callable model "predict_proba" ∨ absent_or_none model "list_classes") →
   ∃ self, __init__ model conf = Ok self ∧
           model !! "list_classes" = Some (class_names self)).
Proof.
  unfold __init__, lacks_callable, absent_or_none, getattr_default, getattr.
  destruct (model !! "predict_proba") as [f|] eqn:Hf; simpl.
  2:{ split; [split; [intros _; left; by intros v [=] | by eauto]|].
      intros []. left. by intros v [=]. }
  destruct (callable f) eqn:Hcall.
  2:{ simpl. rewrite orb_true_r.
      split; [split; [intros _; left; by intros v [= <-] | by eauto]|].
      intros []. left. by intros v [= <-]. }
  assert (is_none f = false) as -> by by destruct f.
  simpl. destruct (model !! "list_classes") as [cls|] eqn:Hcls; simpl.
  2:{ split; [split; [intros _; right; by left | by eauto]|]. intros []. right. by left. }
  destruct (is_none cls) eqn:Hnone.
  { destruct cls; try discriminate Hnone.
    split; [split; [intros _; right; by right | by eauto]|]. intros []. right. by right. }
  split; [split|].
  - intros [msg [=]].
  - intros [Hlack|[[=]|[= ->]]]; [|discriminate Hnone].
    specialize (Hlack f eq_refl). congruence.
  - intros _. eexists. split; [reflexivity|done].
Qed.

(** What a successful [__init__] has checked and stored. *)
Lemma init_Ok model conf self :
  __init__ model conf = Ok self →
  ∃ f cls,
    model !! "predict_proba" = Some f ∧ callable f = true ∧
    model !! "list_classes" = Some cls ∧ is_none cls = false ∧
    self = MkLimeExplainer "model_explainer" model conf cls (VInt 0)
             (MkLimeTextExplainer cls).
Proof.
  unfold __init__, getattr_default, getattr.
  destruct (model !! "predict_proba") as [f|]; simpl; [|discriminate].
  destruct (is_none f) eqn:Hnone; simpl; [discriminate|].
  destruct (callable f) eqn:Hcall; simpl; [|discriminate].
  destruct (model !! "list_classes") as [cls|]; simpl; [|discriminate].
  destruct (is_none cls) eqn:Hcls; simpl; [discriminate|].
  intros [= <-]. by exists f, cls.
Qed.

Section Methods.

Variable get_preprocessor : pyval → result pyval.
Variable call : pyval → list pyval → result pyval.
Variable Explanation : Type.
Variable as_html : Explanation → result pyval.
Variable as_list : Explanation → pyval → result pyval.
Variable lime_explain_instance :
  LimeTextExplainer → pyval → (pyval → result pyval) → list pyval → pyval → result Explanation.

#[local] Abbreviation classifier := (classifier_fn get_preprocessor call).
#[local] Abbreviation explain :=
  (explain_instance get_preprocessor call Explanation lime_explain_instance).
#[local] Abbreviation explain_as_html :=
  (explain_instance_as_html get_preprocessor call Explanation as_html lime_explain_instance).
#[local] Abbreviation explain_as_list :=
  (explain_instance_as_list get_preprocessor call Explanation as_list lime_explain_instance).

Lemma classifier_fn_unfold self content_list conf :
  model_conf self = VDict conf →
  classifier self content_list =
    (preprocessor ← get_preprocessor (preprocess_key conf);
     content_prep ← py_call call preprocessor [content_list];
     predict_proba ← getattr (model self) "predict_proba";
     py_call call predict_proba [content_prep]).
Proof.
  intros Hconf. unfold classifier_fn, preprocess_key. rewrite Hconf. simpl.
  destruct (conf !! "preprocess_str"); reflexivity.
Qed.

(** C6. [classifier_fn] looks the preprocessor up by
    [model_conf['preprocess_str']] when that key is present and by
    ['no_preprocess'] otherwise, applies it to the texts, and returns the
    model's [predict_proba] of the preprocessed texts. *)
Theorem classifier_fn_preprocesses_then_predicts
    self content_list conf preprocessor content_prep predict_proba :
  model_conf self = VDict conf →
  get_preprocessor (preprocess_key conf) = Ok preprocessor →
  py_call call preprocessor [content_list] = Ok content_prep →
  model self !! "predict_proba" = Some predict_proba →
  (∀ k, conf !! "preprocess_str" = Some k → preprocess_key conf = k) ∧
  (conf !! "preprocess_str" = None → preprocess_key conf = VStr "no_preprocess") ∧
  classifier self content_list = py_call call predict_proba [content_prep].
Proof.
  intros Hconf Hget Hprep Hproba. split_and!.
  - intros k Hk. unfold preprocess_key. by rewrite Hk.
  - intros Hk. unfold preprocess_key. by rewrite Hk.
  - rewrite (classifier_fn_unfold _ _ _ Hconf), Hget. simpl. rewrite Hprep. simpl.
    unfold getattr. by rewrite Hproba.
Qed.

(** C10. With [class_or_label_index] equal to [None], [explain_instance]
    stores index [1] and asks LIME for labels [(1,)], whatever index the
    instance held before; [explain_instance_as_html] renders that
    explanation, and [explain_instance_as_list] passes the same [1] as the
    label of [as_list]. *)
Theorem explain_instance_default_index self content max_features :
  explain content VNone max_features self =
    (lime_explain_instance (explainer self) content (classifier (with_index (VInt 1) self))
       [VInt 1] max_features,
     with_index (VInt 1) self) ∧
  explain_as_html content VNone max_features self =
    (explanation ← lime_explain_instance (explainer self) content
                     (classifier (with_index (VInt 1) self)) [VInt 1] max_features;
     as_html explanation,
     with_index (VInt 1) self) ∧
  explain_as_list content VNone max_features self =
    (explanation ← lime_explain_instance (explainer self) content
                     (classifier (with_index (VInt 1) self)) [VInt 1] max_features;
     as_list explanation (VInt 1),
     with_index (VInt 1) self) ∧
  (∀ previous,
     explain content VNone max_features (with_index previous self) =
     explain content VNone max_features self ∧
     explain_as_list content VNone max_features (with_index previous self) =
     explain_as_list content VNone max_features self).
Proof.
  unfold explain_instance_as_html, explain_instance_as_list, explain_instance.
  unfold mbind, M_bind, lift, get, with_index. simpl.
  split_and!; try reflexivity.
  - by destruct (lime_explain_instance _ _ _ _ _).
  - by destruct (lime_explain_instance _ _ _ _ _).
  - intros previous. done.
Qed.

(** X12. For every [class_or_label_index], given or not,
    [explain_instance_as_list] passes to [as_list] the very label it asked
    LIME to explain: the index it was given, or [1] when it was given
    [None]. *)
Theorem explain_instance_as_list_label self content class_or_label_index max_features :
  (explain_as_list content class_or_label_index max_features self).1 =
    (explanation ← lime_explain_instance (explainer self) content
                     (classifier (with_index (effective_index class_or_label_index) self))
                     [effective_index class_or_label_index] max_features;
     as_list explanation (effective_index class_or_label_index)).
Proof.
  unfold explain_instance_as_list, explain_instance, effective_index.
  unfold mbind at 1 2 3 4, M_bind, lift, get, with_index.
  destruct (is_none class_or_label_index); simpl;
    by destruct (lime_explain_instance _ _ _ _ _).
Qed.

(** X13. Whatever LIME and the explanation return or raise, each of
    [explain_instance], [explain_instance_as_html] and
    [explain_instance_as_list] leaves the explainer as it was but for
    [current_class_or_label_index], which holds the index the call worked
    with; and none of them depends on the index stored before the call. *)
Theorem explain_instance_stores_index self content class_or_label_index max_features :
  (explain content class_or_label_index max_features self).2 =
    with_index (effective_index class_or_label_index) self ∧
  (explain_as_html content class_or_label_index max_features self).2 =
    with_index (effective_index class_or_label_index) self ∧
  (explain_as_list content class_or_label_index max_features self).2 =
    with_index (effective_index class_or_label_index) self ∧
  (∀ previous,
     explain content class_or_label_index max_features (with_index previous self) =
       explain content class_or_label_index max_features self ∧
     explain_as_html content class_or_label_index max_features (with_index previous self) =
       explain_as_html content class_or_label_index max_features self ∧
     explain_as_list content class_or_label_index max_features (with_index previous self) =
       explain_as_list content class_or_label_index max_features self).
Proof.
  unfold explain_instance_as_html, explain_instance_as_list, explain_instance,
    effective_index.
  unfold mbind, M_bind, lift, get, with_index.
  destruct (is_none class_or_label_index); simpl; split_and!; try reflexivity;
    try (by destruct (lime_explain_instance _ _ _ _ _) as [x|]; simpl;
           [destruct (as_html x) || destruct (as_list x _)|]);
    by destruct (lime_explain_instance _ _ _ _ _).
Qed.

(** X14. On an explainer that [__init__] built from a model and a
    configuration dictionary, [classifier_fn] never stumbles on
    [predict_proba]: once the texts are preprocessed, what it returns is what
    calling the model's (callable) [predict_proba] on them returns. *)
Theorem classifier_fn_after_init model conf self content_list preprocessor content_prep :
  __init__ model (VDict conf) = Ok self →
  get_preprocessor (preprocess_key conf) = Ok preprocessor →
  py_call call preprocessor [content_list] = Ok content_prep →
  ∃ predict_proba,
    model !! "predict_proba" = Some predict_proba ∧ callable predict_proba = true ∧
    classifier self content_list = call predict_proba [content_prep].
Proof.
  intros (f & cls & Hf & Hcall & _ & _ & ->)%init_Ok Hget Hprep.
  exists f. split_and!; try done.
  rewrite (classifier_fn_unfold _ _ conf) by done. rewrite Hget. simpl.
  rewrite Hprep. simpl. unfold getattr. rewrite Hf. simpl.
  unfold py_call. by rewrite Hcall.
Qed.

(** X15. [__init__] does not look at [model_conf]: once it accepts a model
    it accepts that model with any configuration whatever and stores the
    configuration as it is; and when the configuration is [None], a boolean,
    a number, a string or a list, every call of [classifier_fn] on the
    explainer it returns raises [AttributeError]. *)
Theorem classifier_fn_needs_dict_conf model conf self :
  __init__ model conf = Ok self →
  ∀ conf', ∃ self',
    __init__ model conf' = Ok self' ∧ model_conf self' = conf' ∧
    (keyless conf' = true →
     ∀ content_list, ∃ msg, classifier self' content_list = Err (AttributeError msg)).
Proof.
  intros Hinit conf'.
  pose proof Hinit as (f & cls & Hf & Hcall & Hcls & Hnone & _)%init_Ok.
  eexists. split_and!.
  - unfold __init__, getattr_default, getattr. rewrite Hf, Hcls. simpl.
    assert (is_none f = false) as -> by by destruct f.
    rewrite Hcall, Hnone. reflexivity.
  - reflexivity.
  - intros Hconf content_list. unfold classifier_fn. simpl.
    destruct conf'; try discriminate Hconf; by eexists.
Qed.

End Methods.

End ModelExplainerFacts.

(** ** The methods at work on the concrete project *)

Module RegressorRuns.
Import Py PySpec PyFacts ModelDenseRegressor ModelDenseRegressorSpec ModelDenseRegressorFacts RegressorExample.

#[local] Abbreviation reload :=
  (reload_from_standalone json_load load_model_keras pickle_load copyfile_raises).
#[local] Abbreviation get_model := (_get_model _save_model_png Adam_raises).

(** Leaving [hdf5_path] out raises [ValueError] with nothing done; an [hdf5_path]
    that names no file raises [FileNotFoundError] after existence tests only. *)
Lemma reload_from_standalone_validation_witness :
  (∃ msg, reload kwargs_none s0 = (Err (ValueError msg), s0)) ∧
  (∃ msg tr,
     reload kwargs_missing s0 =
       (Err (FileNotFoundError msg),
        State (self s0) (fs s0) (logger_level s0) (trace s0 ++ tr)) ∧
     Forall (λ ev, is_file_access ev = false) tr).
Proof.
  split.
  - apply (proj1 (reload_from_standalone_validation
                    json_load load_model_keras pickle_load copyfile_raises kwargs_none s0)).
    right; left. vm_compute. reflexivity.
  - apply (proj1 (proj2 (reload_from_standalone_validation
                           json_load load_model_keras pickle_load copyfile_raises kwargs_missing s0))
             "/in/configurations.json" "/in/absent.hdf5" "/in/preprocess_pipeline.pkl").
    + repeat split; vm_compute; reflexivity.
    + right; left. vm_compute. reflexivity.
Defined.

(** Reloading from [config-A]: [nb_fit] and [x_col] come from the file,
    [trained] becomes [True], the other attributes stay. *)
Lemma reload_applies_configuration_witness :
  kwargs_get kwargs "configuration_path" = Some "/in/configurations.json" ∧
  fs s0 !! "/in/configurations.json" = Some "config-A" ∧
  json_load "config-A" = Ok (VDict configs_A) ∧
  reload kwargs s0 = (Ok tt, reloaded) ∧
  (∀ a v, a ∈ handled_attributes → configs_A !! a = Some v →
          self reloaded !! a = Some v) ∧
  (∀ a, a ∈ kept_attributes → configs_A !! a = None →
     is_Some (self s0 !! a) ∧ self reloaded !! a = self s0 !! a) ∧
  (configs_A !! "nb_fit" = None → self reloaded !! "nb_fit" = Some (VInt 1)) ∧
  (configs_A !! "trained" = None → self reloaded !! "trained" = Some (VBool true)).
Proof.
  assert (reload kwargs s0 = (Ok tt, reloaded)) as Hrun by (vm_compute; reflexivity).
  split; [vm_compute; reflexivity|].
  split; [vm_compute; reflexivity|].
  split; [vm_compute; reflexivity|].
  split; [exact Hrun|].
  apply (reload_applies_configuration json_load load_model_keras pickle_load copyfile_raises
           kwargs s0 _ "/in/configurations.json" "config-A" configs_A);
    [vm_compute; reflexivity | vm_compute; reflexivity | vm_compute; reflexivity | exact Hrun].
Defined.

(** C3, as the specification words it, fails on the concrete project:
    [config-A] has no key [trained], the instance has [trained = False], and
    the reload leaves [trained = True]. *)
Lemma reload_overwrites_trained :
  kwargs_get kwargs "configuration_path" = Some "/in/configurations.json" ∧
  fs s0 !! "/in/configurations.json" = Some "config-A" ∧
  json_load "config-A" = Ok (VDict configs_A) ∧
  reload kwargs s0 = (Ok tt, reloaded) ∧
  configs_A !! "trained" = None ∧
  self s0 !! "trained" = Some (VBool false) ∧
  self reloaded !! "trained" = Some (VBool true) ∧
  ¬ present_overrides_absent_keeps configs_A s0 reloaded.
Proof.
  split_and!; try (vm_compute; reflexivity).
  intros H. destruct (H "trained") as [_ Hkeeps].
  { unfold handled_attributes. repeat constructor. }
  assert (self reloaded !! "trained" = self s0 !! "trained") as Heq
    by (apply Hkeeps; vm_compute; reflexivity).
  vm_compute in Heq. discriminate Heq.
Qed.

(** The successful reload of the concrete project, with its model, its copy
    and its pipeline. *)
Lemma reload_loads_model_copies_weights_loads_pipeline_witness :
  reload kwargs s0 = (Ok tt, (reload kwargs s0).2) ∧
  ∃ cp hp pp weights custom model dir dst pcontent pipeline,
    supplied kwargs cp hp pp ∧
    fs s0 !! hp = Some weights ∧
    self s0 !! "custom_objects" = Some custom ∧
    load_model_keras weights custom = Ok model ∧
    self (reload kwargs s0).2 !! "model" = Some model ∧
    self s0 !! "model_dir" = Some dir ∧
    os_path_join dir "best.hdf5" = Ok dst ∧
    fs (reload kwargs s0).2 = <[dst := weights]> (fs s0) ∧
    fs (reload kwargs s0).2 !! pp = Some pcontent ∧
    pickle_load pcontent = Ok pipeline ∧
    self (reload kwargs s0).2 !! "preprocess_pipeline" = Some pipeline ∧
    trace (reload kwargs s0).2 = trace s0 ++
      [EvExists cp; EvExists hp; EvExists pp; EvOpen cp "r"; EvJsonLoad;
       EvLoadModel hp; EvCopyFile hp dst; EvOpen pp "rb"; EvPickleLoad].
Proof.
  assert (reload kwargs s0 = (Ok tt, (reload kwargs s0).2)) as Hrun
    by (vm_compute; reflexivity).
  split; [exact Hrun|].
  exact (reload_loads_model_copies_weights_loads_pipeline
           json_load load_model_keras pickle_load copyfile_raises kwargs s0 _ Hrun).
Defined.

(** An [hdf5_path] that names no file: the error of the checks is the error of
    the call, and the instance and the files are untouched. *)
Lemma reload_validation_failure_leaves_state_witness :
  reload_from_standalone_checks kwargs_missing s0 =
    (Err (FileNotFoundError "The file /in/absent.hdf5 does not exist"),
     State instance files 20 [EvExists "/in/configurations.json"; EvExists "/in/absent.hdf5"]) ∧
  (reload kwargs_missing s0 =
     (Err (FileNotFoundError "The file /in/absent.hdf5 does not exist"),
      State instance files 20 [EvExists "/in/configurations.json"; EvExists "/in/absent.hdf5"]) ∧
   ((∃ msg, FileNotFoundError "The file /in/absent.hdf5 does not exist" = ValueError msg) ∨
    (∃ msg, FileNotFoundError "The file /in/absent.hdf5 does not exist" = FileNotFoundError msg)) ∧
   instance = self s0 ∧ files = fs s0 ∧ 20%Z = logger_level s0).
Proof.
  assert (reload_from_standalone_checks kwargs_missing s0 =
    (Err (FileNotFoundError "The file /in/absent.hdf5 does not exist"),
     State instance files 20 [EvExists "/in/configurations.json"; EvExists "/in/absent.hdf5"]))
    as Hchecks by (vm_compute; reflexivity).
  split; [exact Hchecks|].
  exact (reload_validation_failure_leaves_state
           json_load load_model_keras pickle_load copyfile_raises kwargs_missing s0 _ _ Hchecks).
Defined.

(** [config-A] holds [model_name] and [model_dir]; the instance keeps its own. *)
Lemma reload_keeps_model_name_and_model_dir_witness :
  configs_A !! "model_name" = Some (VStr "other") ∧
  configs_A !! "model_dir" = Some (VStr "/elsewhere") ∧
  self (reload kwargs s0).2 !! "model_name" = Some (VStr "m1") ∧
  self (reload kwargs s0).2 !! "model_dir" = Some (VStr "/models/m1").
Proof.
  destruct (reload_keeps_model_name_and_model_dir
              json_load load_model_keras pickle_load copyfile_raises kwargs s0) as [Hname Hdir].
  split; [vm_compute; reflexivity|].
  split; [vm_compute; reflexivity|].
  split; [rewrite Hname | rewrite Hdir]; vm_compute; reflexivity.
Defined.

(** [_get_model] on the concrete instance returns, and what it returns has the
    topology and the recipe. *)
Lemma get_model_topology_witness :
  (∃ m s', get_model s0 = (Ok m, s')) ∧
  (∃ x_col n kp out,
     self s0 !! "x_col" = Some x_col ∧ len x_col = Ok n ∧
     self s0 !! "keras_params" = Some (VDict kp) ∧
     inputs model0 = Input [n] ∧ outputs model0 = [out] ∧
     input_of out = Input [n] ∧ layers_of out = claimed_layers ∧
     compiled model0 =
       Some (CompileArgs (Adam (learning_rate_of kp) (decay_of kp))
               "mean_squared_error"
               [MetricName "mean_squared_error"; MetricName "mean_absolute_error";
                MetricFunction "utils_deep_keras.root_mean_squared_error"])).
Proof.
  destruct (get_model_topology _save_model_png Adam_raises s0) as [Htopology Hreturns].
  split.
  - apply (Hreturns (VList [VStr "x"]) 1%Z {["decay" := VFloat 0.5]} (VStr "HIGH"));
      try (vm_compute; reflexivity).
    intros _ m s. eexists. reflexivity.
  - apply (Htopology model0 (get_model s0).2). vm_compute. reflexivity.
Defined.

(** Two different instances with the same [x_col] and [keras_params] get the
    same model. *)
Lemma get_model_deterministic_witness :
  self s0 !! "x_col" = self s1 !! "x_col" ∧
  self s0 !! "keras_params" = self s1 !! "keras_params" ∧
  self s0 !! "level_save" = self s1 !! "level_save" ∧
  logger_level s0 = logger_level s1 ∧
  get_model s0 = (Ok model0, (get_model s0).2) ∧
  get_model s1 = (Ok model1, (get_model s1).2) ∧
  self s0 ≠ self s1 ∧
  model0 = model1.
Proof.
  assert (get_model s0 = (Ok model0, (get_model s0).2)) as H0 by (vm_compute; reflexivity).
  assert (get_model s1 = (Ok model1, (get_model s1).2)) as H1 by (vm_compute; reflexivity).
  assert (self s0 !! "x_col" = self s1 !! "x_col") as Hx by (vm_compute; reflexivity).
  assert (self s0 !! "keras_params" = self s1 !! "keras_params") as Hkp
    by (vm_compute; reflexivity).
  assert (self s0 !! "level_save" = self s1 !! "level_save") as Hls
    by (vm_compute; reflexivity).
  assert (logger_level s0 = logger_level s1) as Hlvl by reflexivity.
  split; [exact Hx|]. split; [exact Hkp|]. split; [exact Hls|]. split; [exact Hlvl|].
  split; [exact H0|]. split; [exact H1|].
  split; [intros H; apply (f_equal (λ m, m !! "epochs")) in H; vm_compute in H; discriminate H|].
  exact (get_model_deterministic _save_model_png Adam_raises s0 s1 model0 model1 _ _ Hx Hkp Hls Hlvl H0 H1).
Defined.

(** [custom_objects] is not among the attributes a reload assigns. *)
Lemma reload_changes_written_attributes_only_witness :
  ("custom_objects" ∉ written_attributes) ∧
  self (reload kwargs s0).2 !! "custom_objects" = self s0 !! "custom_objects".
Proof.
  assert ("custom_objects" ∉ written_attributes) as Hk.
  { intros H%list_elem_of_In. simpl in H. intuition discriminate. }
  split; [exact Hk|].
  exact (reload_changes_written_attributes_only
           json_load load_model_keras pickle_load copyfile_raises kwargs s0 "custom_objects" Hk).
Defined.

(** The configuration file is not the instance's [best.hdf5]: the reload
    leaves it alone. *)
Lemma reload_writes_best_hdf5_only_witness :
  ¬ best_hdf5 s0 "/in/configurations.json" ∧
  fs (reload kwargs s0).2 !! "/in/configurations.json" = fs s0 !! "/in/configurations.json".
Proof.
  assert (¬ best_hdf5 s0 "/in/configurations.json") as Hp.
  { intros (dir & Hdir & Hjoin). vm_compute in Hdir. injection Hdir as <-.
    vm_compute in Hjoin. discriminate Hjoin. }
  split; [exact Hp|].
  exact (reload_writes_best_hdf5_only
           json_load load_model_keras pickle_load copyfile_raises kwargs s0 "/in/configurations.json" Hp).
Defined.

(** The weights file of the concrete project after its reload. *)
Lemma reload_keeps_weights_file_witness :
  kwargs_get kwargs "hdf5_path" = Some "/in/best.hdf5" ∧
  fs (reload kwargs s0).2 !! "/in/best.hdf5" = fs s0 !! "/in/best.hdf5".
Proof.
  assert (kwargs_get kwargs "hdf5_path" = Some "/in/best.hdf5") as Hhp
    by (vm_compute; reflexivity).
  split; [exact Hhp|].
  exact (reload_keeps_weights_file
           json_load load_model_keras pickle_load copyfile_raises kwargs s0 "/in/best.hdf5" Hhp).
Defined.

(** The concrete project meets every condition of a reload that returns. *)
Lemma reload_returns_only_if_witness :
  reload kwargs s0 = (Ok tt, reloaded) ∧
  ∃ cp hp pp content d custom weights model dir dst pcontent pipeline,
    supplied kwargs cp hp pp ∧ is_Some (fs s0 !! pp) ∧
    fs s0 !! cp = Some content ∧ json_load content = Ok (VDict d) ∧
    (∀ a, a ∈ kept_attributes → is_Some (self s0 !! a)) ∧
    self s0 !! "custom_objects" = Some custom ∧
    fs s0 !! hp = Some weights ∧ load_model_keras weights custom = Ok model ∧
    self s0 !! "model_dir" = Some dir ∧ os_path_join dir "best.hdf5" = Ok dst ∧
    hp ≠ dst ∧ copyfile_raises (fs s0) hp dst = None ∧
    <[dst := weights]> (fs s0) !! pp = Some pcontent ∧ pickle_load pcontent = Ok pipeline.
Proof.
  assert (reload kwargs s0 = (Ok tt, reloaded)) as Hrun by (vm_compute; reflexivity).
  split; [exact Hrun|].
  exact (reload_returns_only_if json_load load_model_keras pickle_load copyfile_raises
           kwargs s0 reloaded Hrun).
Defined.

(** Without [x_col] on the instance the reload raises [AttributeError] for
    [x_col], although [config-A] has an [x_col]; [model_type], which comes
    before, went through the loop. *)
Lemma reload_missing_attribute_witness :
  supplied kwargs "/in/configurations.json" "/in/best.hdf5" "/in/preprocess_pipeline.pkl" ∧
  is_Some (fs s_without_x_col !! "/in/best.hdf5") ∧
  is_Some (fs s_without_x_col !! "/in/preprocess_pipeline.pkl") ∧
  fs s_without_x_col !! "/in/configurations.json" = Some "config-A" ∧
  json_load "config-A" = Ok (VDict configs_A) ∧
  is_Some (configs_A !! "x_col") ∧
  kept_attributes =
    ["model_type"] ++ "x_col" ::
      ["y_col"; "columns_in"; "mandatory_columns"; "level_save"; "batch_size"; "epochs";
       "validation_split"; "patience"; "keras_params"] ∧
  (∀ b, b ∈ ["model_type"] → is_Some (self s_without_x_col !! b)) ∧
  self s_without_x_col !! "x_col" = None ∧
  ∃ s',
    reload kwargs s_without_x_col = (Err (AttributeError "x_col"), s') ∧
    self s' !! "nb_fit" = Some (override configs_A "nb_fit" (VInt 1)) ∧
    self s' !! "trained" = Some (override configs_A "trained" (VBool true)) ∧
    (∀ b, b ∈ ["model_type"] →
       ∃ cur, self s_without_x_col !! b = Some cur ∧
              self s' !! b = Some (override configs_A b cur)) ∧
    (∀ b, b ∈ "x_col" ::
            ["y_col"; "columns_in"; "mandatory_columns"; "level_save"; "batch_size";
             "epochs"; "validation_split"; "patience"; "keras_params"] →
       self s' !! b = self s_without_x_col !! b) ∧
    self s' !! "model" = self s_without_x_col !! "model" ∧
    fs s' = fs s_without_x_col.
Proof.
  assert (supplied kwargs "/in/configurations.json" "/in/best.hdf5"
            "/in/preprocess_pipeline.pkl") as Hsup
    by (repeat split; vm_compute; reflexivity).
  assert (is_Some (fs s_without_x_col !! "/in/best.hdf5")) as Hhp
    by (exists "weights"; vm_compute; reflexivity).
  assert (is_Some (fs s_without_x_col !! "/in/preprocess_pipeline.pkl")) as Hpp
    by (exists "pipe"; vm_compute; reflexivity).
  assert (fs s_without_x_col !! "/in/configurations.json" = Some "config-A") as Hcp
    by (vm_compute; reflexivity).
  assert (json_load "config-A" = Ok (VDict configs_A)) as Hjson
    by (vm_compute; reflexivity).
  assert (kept_attributes =
            ["model_type"] ++ "x_col" ::
              ["y_col"; "columns_in"; "mandatory_columns"; "level_save"; "batch_size";
               "epochs"; "validation_split"; "patience"; "keras_params"]) as Hsplit
    by reflexivity.
  assert (∀ b, b ∈ ["model_type"] → is_Some (self s_without_x_col !! b)) as Hbefore.
  { intros b Hb%list_elem_of_In. simpl in Hb.
    destruct Hb as [<-|[]]. eexists. vm_compute. reflexivity. }
  assert (self s_without_x_col !! "x_col" = None) as Hnone by (vm_compute; reflexivity).
  split; [exact Hsup|]. split; [exact Hhp|]. split; [exact Hpp|]. split; [exact Hcp|].
  split; [exact Hjson|]. split; [eexists; vm_compute; reflexivity|].
  split; [exact Hsplit|]. split; [exact Hbefore|]. split; [exact Hnone|].
  exact (reload_missing_attribute json_load load_model_keras pickle_load copyfile_raises
           kwargs s_without_x_col _ _ _ _ _ _ _ _ Hsup Hhp Hpp Hcp Hjson Hsplit Hbefore Hnone).
Defined.

(** A configuration path that names the weights file: [json.load] raises
    and the instance is as before. *)
Lemma reload_unreadable_configuration_witness :
  supplied kwargs_bad_configuration "/in/best.hdf5" "/in/best.hdf5"
    "/in/preprocess_pipeline.pkl" ∧
  fs s0 !! "/in/best.hdf5" = Some "weights" ∧
  json_load "weights" = Err (LibraryError "json.JSONDecodeError" "weights") ∧
  ∃ s', reload kwargs_bad_configuration s0 =
          (Err (LibraryError "json.JSONDecodeError" "weights"), s') ∧
        self s' = self s0 ∧ fs s' = fs s0.
Proof.
  assert (supplied kwargs_bad_configuration "/in/best.hdf5" "/in/best.hdf5"
            "/in/preprocess_pipeline.pkl") as Hsup
    by (repeat split; vm_compute; reflexivity).
  assert (fs s0 !! "/in/best.hdf5" = Some "weights") as Hcp by (vm_compute; reflexivity).
  assert (is_Some (fs s0 !! "/in/best.hdf5")) as Hhp by (exists "weights"; exact Hcp).
  assert (is_Some (fs s0 !! "/in/preprocess_pipeline.pkl")) as Hpp
    by (exists "pipe"; vm_compute; reflexivity).
  assert (json_load "weights" = Err (LibraryError "json.JSONDecodeError" "weights"))
    as Hjson by (vm_compute; reflexivity).
  split; [exact Hsup|]. split; [exact Hcp|]. split; [exact Hjson|].
  exact (proj1 (reload_unreadable_configuration json_load load_model_keras pickle_load copyfile_raises
                  kwargs_bad_configuration s0 _ _ _ _ Hsup Hhp Hpp Hcp) _ Hjson).
Defined.

(** Reloading the instance from the [best.hdf5] of its own directory. *)
Lemma reload_onto_own_weights_witness :
  os_path_join (VStr "/models/m1") "best.hdf5" = Ok "/models/m1/best.hdf5" ∧
  kwargs_get kwargs_own "hdf5_path" = Some "/models/m1/best.hdf5" ∧
  ∃ s',
    reload kwargs_own s_own = (Err (SameFileError "/models/m1/best.hdf5"), s') ∧
    self s' !! "model" = Some (VObject "keras model of weights" None) ∧
    self s' !! "nb_fit" = Some (override configs_A "nb_fit" (VInt 1)) ∧
    self s' !! "trained" = Some (override configs_A "trained" (VBool true)) ∧
    (∀ a, a ∈ kept_attributes →
       ∃ cur, self s_own !! a = Some cur ∧ self s' !! a = Some (override configs_A a cur)) ∧
    self s' !! "preprocess_pipeline" = self s_own !! "preprocess_pipeline" ∧
    fs s' = fs s_own.
Proof.
  split; [vm_compute; reflexivity|]. split; [vm_compute; reflexivity|].
  apply (reload_onto_own_weights json_load load_model_keras pickle_load copyfile_raises kwargs_own s_own
           "/in/configurations.json" "/models/m1/best.hdf5" "/in/preprocess_pipeline.pkl"
           "config-A" configs_A (VDict ∅) "weights" (VObject "keras model of weights" None)
           (VStr "/models/m1")).
  - repeat split; vm_compute; reflexivity.
  - exists "pipe". vm_compute. reflexivity.
  - vm_compute. reflexivity.
  - vm_compute. reflexivity.
  - intros a Ha%list_elem_of_In. simpl in Ha.
    repeat (destruct Ha as [<-|Ha]; [eexists; vm_compute; reflexivity|]).
    destruct Ha.
  - vm_compute. reflexivity.
  - vm_compute. reflexivity.
  - vm_compute. reflexivity.
  - vm_compute. reflexivity.
  - vm_compute. reflexivity.
Defined.

(** At level ['LOW'] with the logger at [20], the model is logged and
    summarised, and nothing else happens. *)
Lemma get_model_without_drawing_witness :
  self s_low !! "level_save" = Some (VStr "LOW") ∧
  in_strs (VStr "LOW") ["MEDIUM"; "HIGH"] = false ∧
  get_model s_low = (Ok model0, (get_model s_low).2) ∧
  ∃ kp, self s_low !! "keras_params" = Some (VDict kp) ∧
        (get_model s_low).2 = logged s_low kp model0.
Proof.
  assert (self s_low !! "level_save" = Some (VStr "LOW")) as Hls
    by (vm_compute; reflexivity).
  assert (in_strs (VStr "LOW") ["MEDIUM"; "HIGH"] = false) as Hlow
    by (vm_compute; reflexivity).
  assert (get_model s_low = (Ok model0, (get_model s_low).2)) as Hrun
    by (vm_compute; reflexivity).
  split; [exact Hls|]. split; [exact Hlow|]. split; [exact Hrun|].
  exact (get_model_without_drawing _save_model_png Adam_raises s_low model0 _ _ Hls Hlow Hrun).
Defined.

(** At level ['HIGH'] the model goes to the drawing; with a negative decay
    [Adam] raises and nothing is compiled or drawn. *)
Lemma get_model_with_drawing_witness :
  (self s0 !! "x_col" = Some (VList [VStr "x"]) ∧
   len (VList [VStr "x"]) = Ok 1%Z ∧
   self s0 !! "keras_params" = Some (VDict {["decay" := VFloat 0.5]}) ∧
   self s0 !! "level_save" = Some (VStr "HIGH") ∧
   in_strs (VStr "HIGH") ["MEDIUM"; "HIGH"] = true ∧
   Adam_raises (learning_rate_of {["decay" := VFloat 0.5]})
     (decay_of {["decay" := VFloat 0.5]}) = None ∧
   ∃ m out,
     outputs m = [out] ∧ input_of out = Input [1%Z] ∧ layers_of out = claimed_layers ∧
     compiled m =
       Some (CompileArgs (Adam (learning_rate_of {["decay" := VFloat 0.5]})
                            (decay_of {["decay" := VFloat 0.5]}))
               "mean_squared_error"
               [MetricName "mean_squared_error"; MetricName "mean_absolute_error";
                MetricFunction "utils_deep_keras.root_mean_squared_error"]) ∧
     get_model s0 =
       match _save_model_png m (logged s0 {["decay" := VFloat 0.5]} m) with
       | (Ok _, s') => (Ok m, s')
       | (Err e, s') => (Err e, s')
       end) ∧
  (self s_negative_decay !! "x_col" = Some (VList [VStr "x"]) ∧
   self s_negative_decay !! "keras_params" = Some (VDict {["decay" := VFloat (-0.5)]}) ∧
   self s_negative_decay !! "level_save" = Some (VStr "HIGH") ∧
   Adam_raises (learning_rate_of {["decay" := VFloat (-0.5)]})
     (decay_of {["decay" := VFloat (-0.5)]}) =
     Some (ValueError "Expected a non-negative value") ∧
   get_model s_negative_decay =
     (Err (ValueError "Expected a non-negative value"),
      logged_rates s_negative_decay {["decay" := VFloat (-0.5)]})).
Proof.
  assert (len (VList [VStr "x"]) = Ok 1%Z) as Hn by reflexivity.
  assert (in_strs (VStr "HIGH") ["MEDIUM"; "HIGH"] = true) as Hhigh
    by (vm_compute; reflexivity).
  split.
  - assert (self s0 !! "x_col" = Some (VList [VStr "x"])) as Hx by (vm_compute; reflexivity).
    assert (self s0 !! "keras_params" = Some (VDict {["decay" := VFloat 0.5]})) as Hkp
      by (vm_compute; reflexivity).
    assert (self s0 !! "level_save" = Some (VStr "HIGH")) as Hls
      by (vm_compute; reflexivity).
    assert (Adam_raises (learning_rate_of {["decay" := VFloat 0.5]})
              (decay_of {["decay" := VFloat 0.5]}) = None) as Hadam
      by (vm_compute; reflexivity).
    split; [exact Hx|]. split; [exact Hn|]. split; [exact Hkp|]. split; [exact Hls|].
    split; [exact Hhigh|]. split; [exact Hadam|].
    pose proof (get_model_with_drawing _save_model_png Adam_raises s0 _ _ _ _
                  Hx Hn Hkp Hls Hhigh) as H.
    rewrite Hadam in H. exact H.
  - assert (self s_negative_decay !! "x_col" = Some (VList [VStr "x"])) as Hx
      by (vm_compute; reflexivity).
    assert (self s_negative_decay !! "keras_params" =
              Some (VDict {["decay" := VFloat (-0.5)]})) as Hkp
      by (vm_compute; reflexivity).
    assert (self s_negative_decay !! "level_save" = Some (VStr "HIGH")) as Hls
      by (vm_compute; reflexivity).
    assert (Adam_raises (learning_rate_of {["decay" := VFloat (-0.5)]})
              (decay_of {["decay" := VFloat (-0.5)]}) =
              Some (ValueError "Expected a non-negative value")) as Hadam
      by (vm_compute; reflexivity).
    split; [exact Hx|]. split; [exact Hkp|]. split; [exact Hls|]. split; [exact Hadam|].
    pose proof (get_model_with_drawing _save_model_png Adam_raises s_negative_decay _ _ _ _
                  Hx Hn Hkp Hls Hhigh) as H.
    rewrite Hadam in H. exact H.
Defined.

(** With [x_col] left to [None], [_get_model] raises [TypeError]; with a list
    for [keras_params], [AttributeError]. *)
Lemma get_model_rejects_witness :
  (∃ msg, get_model s_x_col_none = (Err (TypeError msg), s_x_col_none)) ∧
  (∃ msg, get_model s_keras_params_list = (Err (AttributeError msg), s_keras_params_list)).
Proof.
  split.
  - apply (proj1 (get_model_rejects _save_model_png Adam_raises s_x_col_none) VNone);
      [vm_compute; reflexivity | reflexivity].
  - apply (proj2 (get_model_rejects _save_model_png Adam_raises s_keras_params_list)
             (VList [VStr "x"]) 1%Z (VList []));
      [vm_compute; reflexivity | reflexivity | vm_compute; reflexivity | reflexivity].
Defined.

(** Another column name, one more entry in [keras_params], another logger
    level: the same model. *)
Lemma get_model_depends_on_length_and_rates_witness :
  self s0 !! "x_col" = Some (VList [VStr "x"]) ∧
  self s_renamed !! "x_col" = Some (VList [VStr "z"]) ∧
  len (VList [VStr "x"]) = len (VList [VStr "z"]) ∧
  get_model s0 = (Ok model0, (get_model s0).2) ∧
  get_model s_renamed = (Ok (model_of s_renamed), (get_model s_renamed).2) ∧
  model0 = model_of s_renamed.
Proof.
  assert (self s0 !! "x_col" = Some (VList [VStr "x"])) as Hx0 by (vm_compute; reflexivity).
  assert (self s_renamed !! "x_col" = Some (VList [VStr "z"])) as Hx1
    by (vm_compute; reflexivity).
  assert (len (VList [VStr "x"]) = len (VList [VStr "z"])) as Hlen by reflexivity.
  assert (get_model s0 = (Ok model0, (get_model s0).2)) as H0 by (vm_compute; reflexivity).
  assert (get_model s_renamed = (Ok (model_of s_renamed), (get_model s_renamed).2)) as H1
    by (vm_compute; reflexivity).
  split; [exact Hx0|]. split; [exact Hx1|]. split; [exact Hlen|]. split; [exact H0|].
  split; [exact H1|].
  assert (self s0 !! "keras_params" = Some (VDict {["decay" := VFloat 0.5]})) as Hkp0
    by (vm_compute; reflexivity).
  assert (self s_renamed !! "keras_params" =
            Some (VDict (<["dropout" := VFloat 0.3]> {["decay" := VFloat 0.5]}))) as Hkp1
    by (vm_compute; reflexivity).
  assert (({["decay" := VFloat 0.5]} : gmap string pyval) !! "learning_rate" =
            (<["dropout" := VFloat 0.3]> {["decay" := VFloat 0.5]} : gmap string pyval)
              !! "learning_rate") as Hlr by (vm_compute; reflexivity).
  assert (({["decay" := VFloat 0.5]} : gmap string pyval) !! "decay" =
            (<["dropout" := VFloat 0.3]> {["decay" := VFloat 0.5]} : gmap string pyval)
              !! "decay") as Hdecay by (vm_compute; reflexivity).
  exact (get_model_depends_on_length_and_rates _save_model_png Adam_raises s0 s_renamed
           _ _ _ _ model0 (model_of s_renamed) _ _
           Hx0 Hx1 Hlen Hkp0 Hkp1 Hlr Hdecay H0 H1).
Defined.


End RegressorRuns.

Module ExplainerRuns.
Import Py PySpec PyFacts ModelExplainer ModelExplainerSpec ModelExplainerFacts ExplainerExample.

#[local] Abbreviation classifier := (classifier_fn get_preprocessor call).
#[local] Abbreviation explain :=
  (explain_instance get_preprocessor call Explanation lime_explain_instance).
#[local] Abbreviation explain_as_html :=
  (explain_instance_as_html get_preprocessor call Explanation as_html lime_explain_instance).
#[local] Abbreviation explain_as_list :=
  (explain_instance_as_list get_preprocessor call Explanation as_list lime_explain_instance).

(** A model whose [predict_proba] is a number is refused; the complete model is
    accepted. *)
Lemma init_TypeError_iff_witness :
  (∃ msg, __init__ model_without_proba (VDict conf) = Err (TypeError msg)) ∧
  (∃ self, __init__ model (VDict conf) = Ok self ∧
           model !! "list_classes" = Some (class_names self)).
Proof.
  split.
  - apply (proj1 (init_TypeError_iff model_without_proba (VDict conf))).
    left. intros v Hv. vm_compute in Hv. injection Hv as <-. reflexivity.
  - apply (proj2 (init_TypeError_iff model (VDict conf))).
    intros [Hlack|[Habsent|Hnone]].
    + specialize (Hlack (VCallable "predict_proba")). vm_compute in Hlack.
      specialize (Hlack eq_refl). discriminate Hlack.
    + vm_compute in Habsent. discriminate Habsent.
    + vm_compute in Hnone. discriminate Hnone.
Defined.

(** With [preprocess_str] set to [preprocess_P1], the texts go through that
    preprocessor and then through [predict_proba]. *)
Lemma classifier_fn_preprocesses_then_predicts_witness :
  model_conf self = VDict conf ∧
  get_preprocessor (preprocess_key conf) = Ok (VCallable "preprocess_P1") ∧
  py_call call (VCallable "preprocess_P1") [VList [VStr "some text"]] =
    Ok (VList [VStr "P1"; VStr "some text"]) ∧
  ModelExplainer.model self !! "predict_proba" = Some (VCallable "predict_proba") ∧
  (∀ k, conf !! "preprocess_str" = Some k → preprocess_key conf = k) ∧
  (conf !! "preprocess_str" = None → preprocess_key conf = VStr "no_preprocess") ∧
  classifier self (VList [VStr "some text"]) =
    py_call call (VCallable "predict_proba") [VList [VStr "P1"; VStr "some text"]].
Proof.
  split; [reflexivity|].
  split; [vm_compute; reflexivity|].
  split; [vm_compute; reflexivity|].
  split; [vm_compute; reflexivity|].
  apply (classifier_fn_preprocesses_then_predicts get_preprocessor call self
           (VList [VStr "some text"]) conf (VCallable "preprocess_P1")
           (VList [VStr "P1"; VStr "some text"]) (VCallable "predict_proba"));
    [reflexivity | vm_compute; reflexivity | vm_compute; reflexivity | vm_compute; reflexivity].
Defined.

(** From index [0] as from index [7], a call without index explains label [1]. *)
Lemma explain_instance_default_index_witness :
  current_class_or_label_index self = VInt 0 ∧
  explain (VStr "some text") VNone (VInt 15) self =
    (Ok ([VInt 1], VInt 15), with_index (VInt 1) self) ∧
  explain_as_list (VStr "some text") VNone (VInt 15) (with_index (VInt 7) self) =
    (Ok (VList [VInt 1; VList [VInt 1]]), with_index (VInt 1) self).
Proof.
  destruct (explain_instance_default_index get_preprocessor call Explanation as_html as_list
              lime_explain_instance self (VStr "some text") (VInt 15))
    as (Hexplain & _ & Hlist & Hprevious).
  split; [reflexivity|]. split.
  - rewrite Hexplain. vm_compute. reflexivity.
  - rewrite (proj2 (Hprevious (VInt 7))), Hlist. vm_compute. reflexivity.
Defined.

(** Asked for label [0] on an explainer that holds [7], [as_list] is given
    label [0]. *)
Lemma explain_instance_as_list_label_witness :
  (explain_as_list (VStr "some text") (VInt 0) (VInt 15) (with_index (VInt 7) self)).1 =
    Ok (VList [VInt 0; VList [VInt 0]]).
Proof.
  rewrite (explain_instance_as_list_label get_preprocessor call Explanation as_list
             lime_explain_instance).
  vm_compute. reflexivity.
Defined.

(** With a preprocessing nobody registered LIME raises, and the index is
    stored all the same. *)
Lemma explain_instance_stores_index_witness :
  current_class_or_label_index self_unknown = VInt 7 ∧
  (explain (VStr "some text") (VInt 0) (VInt 15) self_unknown).1 =
    Err (ValueError "unknown") ∧
  (explain (VStr "some text") (VInt 0) (VInt 15) self_unknown).2 =
    with_index (VInt 0) self_unknown.
Proof.
  split; [reflexivity|]. split; [vm_compute; reflexivity|].
  rewrite (proj1 (explain_instance_stores_index get_preprocessor call Explanation
                    as_html as_list lime_explain_instance
                    self_unknown (VStr "some text") (VInt 0) (VInt 15))).
  reflexivity.
Defined.

(** The explainer of the example is the one [__init__] builds. *)
Lemma classifier_fn_after_init_witness :
  __init__ model (VDict conf) = Ok self ∧
  get_preprocessor (preprocess_key conf) = Ok (VCallable "preprocess_P1") ∧
  py_call call (VCallable "preprocess_P1") [VList [VStr "some text"]] =
    Ok (VList [VStr "P1"; VStr "some text"]) ∧
  ∃ predict_proba,
    model !! "predict_proba" = Some predict_proba ∧ callable predict_proba = true ∧
    classifier self (VList [VStr "some text"]) =
      call predict_proba [VList [VStr "P1"; VStr "some text"]].
Proof.
  assert (__init__ model (VDict conf) = Ok self) as Hinit by (vm_compute; reflexivity).
  assert (get_preprocessor (preprocess_key conf) = Ok (VCallable "preprocess_P1")) as Hget
    by (vm_compute; reflexivity).
  assert (py_call call (VCallable "preprocess_P1") [VList [VStr "some text"]] =
            Ok (VList [VStr "P1"; VStr "some text"])) as Hprep
    by (vm_compute; reflexivity).
  split; [exact Hinit|]. split; [exact Hget|]. split; [exact Hprep|].
  exact (classifier_fn_after_init get_preprocessor call model conf self _ _ _
           Hinit Hget Hprep).
Defined.

(** The model of the example with [None] for configuration. *)
Lemma classifier_fn_needs_dict_conf_witness :
  __init__ model (VDict conf) = Ok self ∧
  ∃ self',
    __init__ model VNone = Ok self' ∧ model_conf self' = VNone ∧
    (keyless VNone = true →
     ∀ content_list, ∃ msg, classifier self' content_list = Err (AttributeError msg)).
Proof.
  assert (__init__ model (VDict conf) = Ok self) as Hinit by (vm_compute; reflexivity).
  split; [exact Hinit|].
  exact (classifier_fn_needs_dict_conf get_preprocessor call model (VDict conf) self
           Hinit VNone).
Defined.

End ExplainerRuns.
